(** * Online learning platform backend: the Express application of [index.js]

    A shallow embedding of the request handlers of [index.js] and of the
    SQL statements they issue, followed by the properties of the
    specification that concern them.

    - Request values are JavaScript values ([jsval]); the presence checks
      of the handlers are JavaScript falsiness ([truthy]).
    - The PostgreSQL connection [con] is an explicit [Store] threaded
      through a state-and-exception monad [M]; every [con.query] may
      reject, which the surrounding [try]/[catch] turns into a 500.
    - [bcrypt] and [jsonwebtoken] are external packages: they are
      parameters of the development. *)

From Stdlib Require Import ZArith String List Bool Lia.
From stdpp Require Import base gmap strings list pretty.

Open Scope string_scope.
Open Scope list_scope.

(** ** JavaScript values of a parsed JSON body *)

(** A field of [req.body]. [JUndefined] is what reading an absent property
    gives. [JNum] holds the integer numbers; [JOther enc] stands for every
    remaining JSON value (an object, an array, a number with a fraction),
    all of them truthy, with [enc] the text the driver sends for it. *)
Inductive jsval : Type :=
| JUndefined
| JNull
| JBool (b : bool)
| JNum (n : Z)
| JStr (s : string)
| JOther (enc : string).

(** JavaScript [ToBoolean]: [undefined], [null], [false], [0] and the
    empty string are falsy. [!v] is [negb (truthy v)]. *)
Definition truthy (v : jsval) : bool :=
  match v with
  | JUndefined | JNull => false
  | JBool b => b
  | JNum n => negb (n =? 0)%Z
  | JStr s => negb (s =? "")
  | JOther _ => true
  end.

(** [req.body.k] *)
Definition field (k : string) (b : gmap string jsval) : jsval :=
  default JUndefined (b !! k).

(** [String.prototype.replace(pat, rep)] with a string pattern: only the
    first occurrence is replaced. (The [$] patterns of a replacement do not
    occur in the empty replacement the middleware passes.) *)
Fixpoint strip_prefix (pat s : string) : option string :=
  match pat with
  | "" => Some s
  | String a pat' =>
      match s with
      | "" => None
      | String b s' => if Ascii.eqb a b then strip_prefix pat' s' else None
      end
  end.

Fixpoint replace (pat rep s : string) : string :=
  match strip_prefix pat s with
  | Some rest => String.append rep rest
  | None =>
      match s with
      | "" => ""
      | String c s' => String c (replace pat rep s')
      end
  end.

(** ** JSON documents sent by [res.json] *)

#[local] Set Warnings "-register-all".

Inductive json : Type :=
| JsNull
| JsStr (s : string)
| JsArr (items : list json)
| JsObj (props : list (string * json)).

(** An object literal some of whose properties may be [undefined]:
    [JSON.stringify] leaves those out. *)
Definition obj (props : list (string * option json)) : json :=
  JsObj (omap (fun '(k, v) => pair k <$> v) props).

Record Response : Type := { status : Z; payload : json }.

(** [res.status(code).json(doc)] *)
Definition respond (code : Z) (doc : json) : Response :=
  {| status := code; payload := doc |}.

(** ** The database *)

(** A column value as the driver exchanges it: text, or [None] for SQL
    [NULL]. *)
Definition sqlval : Type := option string.

(** [prepareValue] of the driver: [null] and [undefined] become [NULL],
    everything else its text. *)
Definition prepareValue (v : jsval) : sqlval :=
  match v with
  | JUndefined | JNull => None
  | JBool true => Some "true"
  | JBool false => Some "false"
  | JNum n => Some (pretty n)
  | JStr s => Some s
  | JOther enc => Some enc
  end.

(** SQL [a = b] in a [WHERE] or [ON] clause: a comparison with [NULL] is
    not true. *)
Definition sql_eq (a b : sqlval) : bool :=
  match a, b with
  | Some x, Some y => (x =? y)
  | _, _ => false
  end.

(** SQL [COALESCE(a, b)] *)
Definition COALESCE (a b : sqlval) : sqlval :=
  match a with
  | Some _ => a
  | None => b
  end.

(** Modelled from the spec: the table definitions are not part of the
    repository. The columns are the ones the statements of [index.js] name
    and the data model of the specification lists; they are untyped (they
    hold what the driver sent), [id] of Users and Courses is generated from
    a sequence, and no constraint is declared. An error the server would
    raise for a reason outside this model is a fault of [query] below. *)
Record UserRow : Type :=
  { u_id : sqlval; u_name : sqlval; u_email : sqlval;
    u_password : sqlval; u_role : sqlval }.

Record CourseRow : Type :=
  { c_id : sqlval; c_title : sqlval; c_description : sqlval;
    c_instructor_id : sqlval }.

Record EnrollmentRow : Type :=
  { e_course_id : sqlval; e_user_id : sqlval }.

Record ReviewRow : Type :=
  { r_course_id : sqlval; r_user_id : sqlval;
    r_rating : sqlval; r_comment : sqlval }.

Record Store : Type :=
  { Users : list UserRow;
    Courses : list CourseRow;
    Enrollments : list EnrollmentRow;
    Reviews : list ReviewRow;
    users_id_seq : N;
    courses_id_seq : N }.

(** A result row, as [result.rows[i]]: column name to value. *)
Definition row : Type := list (string * sqlval).

(** [r.k] on a result row *)
Definition col (k : string) (r : row) : sqlval :=
  match List.find (fun p => fst p =? k) r with
  | Some p => snd p
  | None => None
  end.

Definition json_of_sql (v : sqlval) : json :=
  match v with
  | Some s => JsStr s
  | None => JsNull
  end.

Definition json_of_row (r : row) : json :=
  JsObj (List.map (fun p => (fst p, json_of_sql (snd p))) r).

Definition user_row (u : UserRow) : row :=
  [("id", u_id u); ("name", u_name u); ("email", u_email u);
   ("password", u_password u); ("role", u_role u)].

Definition course_row (c : CourseRow) : row :=
  [("id", c_id c); ("title", c_title c); ("description", c_description c);
   ("instructor_id", c_instructor_id c)].

Definition enrollment_row (e : EnrollmentRow) : row :=
  [("course_id", e_course_id e); ("user_id", e_user_id e)].

Definition review_row (r : ReviewRow) : row :=
  [("course_id", r_course_id r); ("user_id", r_user_id r);
   ("rating", r_rating r); ("comment", r_comment r)].

Definition set_Courses (f : list CourseRow -> list CourseRow) (s : Store) : Store :=
  {| Users := Users s; Courses := f (Courses s);
     Enrollments := Enrollments s; Reviews := Reviews s;
     users_id_seq := users_id_seq s; courses_id_seq := courses_id_seq s |}.

Definition set_Enrollments (f : list EnrollmentRow -> list EnrollmentRow)
    (s : Store) : Store :=
  {| Users := Users s; Courses := Courses s;
     Enrollments := f (Enrollments s); Reviews := Reviews s;
     users_id_seq := users_id_seq s; courses_id_seq := courses_id_seq s |}.

Definition set_Reviews (f : list ReviewRow -> list ReviewRow) (s : Store) : Store :=
  {| Users := Users s; Courses := Courses s;
     Enrollments := Enrollments s; Reviews := f (Reviews s);
     users_id_seq := users_id_seq s; courses_id_seq := courses_id_seq s |}.

(** *** The statements of [index.js]

    Each one maps the store to the result rows and the store after it. *)
Module SQL.

(** [SELECT * FROM Users WHERE email = $1] *)
Definition users_by_email (email : sqlval) (s : Store) : list row * Store :=
  (List.map user_row
     (List.filter (fun u => sql_eq (u_email u) email) (Users s)), s).

(** [INSERT INTO Users (name, email, password, role) VALUES ($1, $2, $3, $4)
    RETURNING id, name, email, role] *)
Definition insert_user (name email password role : sqlval) (s : Store)
  : list row * Store :=
  let id := Some (pretty (users_id_seq s)) in
  let u := {| u_id := id; u_name := name; u_email := email;
              u_password := password; u_role := role |} in
  ([ [("id", id); ("name", name); ("email", email); ("role", role)] ],
   {| Users := Users s ++ [u]; Courses := Courses s;
      Enrollments := Enrollments s; Reviews := Reviews s;
      users_id_seq := N.succ (users_id_seq s);
      courses_id_seq := courses_id_seq s |}).

(** [INSERT INTO Courses (title, description, instructor_id)
    VALUES ($1, $2, $3) RETURNING *] *)
Definition insert_course (title description instructor_id : sqlval)
    (s : Store) : list row * Store :=
  let c := {| c_id := Some (pretty (courses_id_seq s)); c_title := title;
              c_description := description;
              c_instructor_id := instructor_id |} in
  ([course_row c],
   {| Users := Users s; Courses := Courses s ++ [c];
      Enrollments := Enrollments s; Reviews := Reviews s;
      users_id_seq := users_id_seq s;
      courses_id_seq := N.succ (courses_id_seq s) |}).

(** [SELECT * FROM Courses WHERE id = $1] *)
Definition course_by_id (id : sqlval) (s : Store) : list row * Store :=
  (List.map course_row
     (List.filter (fun c => sql_eq (c_id c) id) (Courses s)), s).

(** The assignment of
    [UPDATE Courses SET title = COALESCE($1, title),
     description = COALESCE($2, description)] to one row. *)
Definition set_course (title description : sqlval) (c : CourseRow)
  : CourseRow :=
  {| c_id := c_id c;
     c_title := COALESCE title (c_title c);
     c_description := COALESCE description (c_description c);
     c_instructor_id := c_instructor_id c |}.

(** [UPDATE Courses SET ... WHERE id = $3 RETURNING *] *)
Definition update_course (title description id : sqlval) (s : Store)
  : list row * Store :=
  (List.map (fun c => course_row (set_course title description c))
     (List.filter (fun c => sql_eq (c_id c) id) (Courses s)),
   set_Courses
     (List.map (fun c => if sql_eq (c_id c) id
                         then set_course title description c else c)) s).

(** [DELETE FROM Courses WHERE id = $1] *)
Definition delete_course (id : sqlval) (s : Store) : list row * Store :=
  ([], set_Courses (List.filter (fun c => negb (sql_eq (c_id c) id))) s).

(** [SELECT * FROM Courses WHERE instructor_id = $1] *)
Definition courses_by_instructor (instructor_id : sqlval) (s : Store)
  : list row * Store :=
  (List.map course_row
     (List.filter (fun c => sql_eq (c_instructor_id c) instructor_id)
        (Courses s)), s).

(** The [WHERE course_id = $1 AND user_id = $2] of the statements on
    Enrollments. *)
Definition enrollment_matches (course_id user_id : sqlval)
    (e : EnrollmentRow) : bool :=
  sql_eq (e_course_id e) course_id && sql_eq (e_user_id e) user_id.

(** [SELECT * FROM Enrollments WHERE course_id = $1 AND user_id = $2] *)
Definition enrollment_by_pair (course_id user_id : sqlval) (s : Store)
  : list row * Store :=
  (List.map enrollment_row
     (List.filter (enrollment_matches course_id user_id) (Enrollments s)),
   s).

(** [INSERT INTO Enrollments (course_id, user_id) VALUES ($1, $2)
    RETURNING *] *)
Definition insert_enrollment (course_id user_id : sqlval) (s : Store)
  : list row * Store :=
  let e := {| e_course_id := course_id; e_user_id := user_id |} in
  ([enrollment_row e], set_Enrollments (fun es => es ++ [e]) s).

(** [DELETE FROM Enrollments WHERE course_id = $1 AND user_id = $2] *)
Definition delete_enrollment (course_id user_id : sqlval) (s : Store)
  : list row * Store :=
  ([], set_Enrollments
         (List.filter
            (fun e => negb (enrollment_matches course_id user_id e))) s).

(** The rows of
    [SELECT c.id, c.title, c.description, c.instructor_id FROM courses c
     JOIN Enrollments e ON c.id = e.course_id WHERE e.user_id = $1]:
    one per pair of a course and an enrollment that satisfies both
    conditions. *)
Definition enrolled (user_id : sqlval) (s : Store) : list CourseRow :=
  List.flat_map
    (fun c =>
       List.map (fun _ => c)
         (List.filter
            (fun e => sql_eq (c_id c) (e_course_id e)
                      && sql_eq (e_user_id e) user_id)
            (Enrollments s)))
    (Courses s).

Definition enrolled_courses (user_id : sqlval) (s : Store)
  : list row * Store :=
  (List.map course_row (enrolled user_id s), s).

(** [INSERT INTO Reviews (course_id, user_id, rating, comment)
    VALUES ($1, $2, $3, $4) RETURNING *] *)
Definition insert_review (course_id user_id rating comment : sqlval)
    (s : Store) : list row * Store :=
  let r := {| r_course_id := course_id; r_user_id := user_id;
              r_rating := rating; r_comment := comment |} in
  ([review_row r], set_Reviews (fun rs => rs ++ [r]) s).

Definition review_matches (course_id user_id : sqlval) (r : ReviewRow)
  : bool :=
  sql_eq (r_course_id r) course_id && sql_eq (r_user_id r) user_id.

(** [SELECT * FROM Reviews WHERE course_id = $1 AND user_id = $2] *)
Definition review_by_pair (course_id user_id : sqlval) (s : Store)
  : list row * Store :=
  (List.map review_row
     (List.filter (review_matches course_id user_id) (Reviews s)), s).

Definition set_review (rating comment : sqlval) (r : ReviewRow)
  : ReviewRow :=
  {| r_course_id := r_course_id r; r_user_id := r_user_id r;
     r_rating := COALESCE rating (r_rating r);
     r_comment := COALESCE comment (r_comment r) |}.

(** [UPDATE Reviews SET rating = COALESCE($1, rating),
     comment = COALESCE($2, comment)
     WHERE course_id = $3 AND user_id = $4 RETURNING *] *)
Definition update_review (rating comment course_id user_id : sqlval)
    (s : Store) : list row * Store :=
  (List.map (fun r => review_row (set_review rating comment r))
     (List.filter (review_matches course_id user_id) (Reviews s)),
   set_Reviews
     (List.map (fun r => if review_matches course_id user_id r
                         then set_review rating comment r else r)) s).

(** [SELECT r.rating, r.comment, u.name AS reviewer_name FROM Reviews r
     JOIN Users u ON r.user_id = u.id WHERE r.course_id = $1] *)
Definition course_reviews (course_id : sqlval) (s : Store)
  : list row * Store :=
  (List.flat_map
     (fun r =>
        List.map
          (fun u => [("rating", r_rating r); ("comment", r_comment r);
                     ("reviewer_name", u_name u)])
          (List.filter
             (fun u => sql_eq (r_user_id r) (u_id u)
                       && sql_eq (r_course_id r) course_id)
             (Users s)))
     (Reviews s), s).

End SQL.

(** ** Requests, the world and the handler monad *)

Inductive Route : Type :=
| POST_users_register
| POST_users_login
| POST_courses
| PUT_courses (id : string)
| DELETE_courses (id : string)
| GET_courses (instructorId : string)
| POST_enrollments
| DELETE_enrollments
| GET_enrollments (userId : string)
| POST_reviews (courseId : string)
| PUT_reviews (courseId userId : string)
| GET_reviews (courseId : string).

(** What a handler reads of [req]: the route with its [req.params], the
    Authorization header ([None] when the header is not sent), the parsed
    body, and [req.user], which only the middleware writes. *)
Record Request : Type :=
  { route : Route;
    authorization : option string;
    body : gmap string jsval;
    user : option json }.

Definition set_user (decoded : json) (req : Request) : Request :=
  {| route := route req; authorization := authorization req;
     body := body req; user := Some decoded |}.

(** The state outside the process: the database, the faults the next
    queries will meet ([true]: the query rejects; an exhausted list means
    no further fault), and the state of the random generator that
    [bcrypt.genSalt] draws from. *)
Record World : Type :=
  { db : Store; faults : list bool; rng : N }.

Inductive outcome (A : Type) : Type :=
| Ok (a : A)
| Throw.
Arguments Ok {A} a.
Arguments Throw {A}.

Definition M (A : Type) : Type := World -> outcome A * World.

Definition ret {A : Type} (a : A) : M A := fun w => (Ok a, w).

Definition bind {A B : Type} (m : M A) (k : A -> M B) : M B :=
  fun w =>
    match m w with
    | (Ok a, w') => k a w'
    | (Throw, w') => (Throw, w')
    end.

Definition throw {A : Type} : M A := fun w => (Throw, w).

(** [try { m } catch (error) { h }] *)
Definition try_catch {A : Type} (m h : M A) : M A :=
  fun w =>
    match m w with
    | (Ok a, w') => (Ok a, w')
    | (Throw, w') => h w'
    end.

(** A call of an external package that returns or throws. *)
Definition lift {A : Type} (o : option A) : M A :=
  match o with
  | Some a => ret a
  | None => throw
  end.

Declare Scope handler_scope.
Delimit Scope handler_scope with handler.
Notation "x <- m ;; k" := (bind m (fun x => k))
  (at level 100, m at next level, right associativity) : handler_scope.
Open Scope handler_scope.

(** [await con.query(stmt, params)]: the statement runs on the store,
    unless the query meets a fault; a rejected query writes no row. (A
    server may draw from an id sequence before it rejects an [INSERT]:
    what is stated below of a rejected query speaks of the tables, not of
    the sequences.) *)
Definition query {A : Type} (stmt : Store -> A * Store) : M A :=
  fun w =>
    match faults w with
    | true :: fs => (Throw, {| db := db w; faults := fs; rng := rng w |})
    | false :: fs =>
        (Ok (fst (stmt (db w))),
         {| db := snd (stmt (db w)); faults := fs; rng := rng w |})
    | [] =>
        (Ok (fst (stmt (db w))),
         {| db := snd (stmt (db w)); faults := []; rng := rng w |})
    end.

Definition error (text : string) : json := JsObj [("error", JsStr text)].
Definition message (text : string) : json := JsObj [("message", JsStr text)].

(** The [catch] block every handler has. *)
Definition server_error : M Response :=
  ret (respond 500 (error "Server error")).

(** [rows.length > 0] and [rows.length === 0] *)
Definition nonempty {A : Type} (rows : list A) : bool :=
  (0 <? length rows)%nat.
Definition empty {A : Type} (rows : list A) : bool :=
  (length rows =? 0)%nat.

(** The external packages and the configuration of the process.
    - [JWT_SECRET_KEY]: [process.env.JWT_SECRET_KEY]; [None] when unset.
    - [jwt_sign id secret expiresIn]: [jwt.sign({ id }, secret,
      { expiresIn })], the token, or [None] when it throws.
    - [jwt_verify token secret]: [jwt.verify(token, secret)] at the time
      of the request, the decoded payload, or [None] when it throws (bad
      signature, expired token).
    - [bcrypt_genSalt rounds g]: [bcrypt.genSalt(rounds)] from the
      generator state [g].
    - [bcrypt_hash data salt]: [bcrypt.hash(data, salt)], the hash, or
      [None] when it rejects.
    - [bcrypt_compare data hash]: [bcrypt.compare(data, hash)], the
      verdict, or [None] when it rejects. *)
Record Env : Type :=
  { JWT_SECRET_KEY : option string;
    jwt_sign : sqlval -> option string -> string -> option string;
    jwt_verify : string -> option string -> option json;
    bcrypt_genSalt : Z -> N -> string * N;
    bcrypt_hash : jsval -> string -> option string;
    bcrypt_compare : jsval -> sqlval -> option bool }.

Section App.

Variable env : Env.

Definition genSalt (rounds : Z) : M string :=
  fun w =>
    (Ok (fst (bcrypt_genSalt env rounds (rng w))),
     {| db := db w; faults := faults w;
        rng := snd (bcrypt_genSalt env rounds (rng w)) |}).

Definition generateToken (userId : sqlval) : M string :=
  lift (jwt_sign env userId (JWT_SECRET_KEY env) "7d").

(** [req.header('Authorization')?.replace('Bearer ', '')]; [None] is
    [undefined]. *)
Definition bearer (req : Request) : option string :=
  replace "Bearer " "" <$> authorization req.

Definition verifyToken (req : Request) (next : Request -> M Response)
  : M Response :=
  match bearer req with
  | None | Some "" =>
      (* !token *)
      ret (respond 401 (message "Access Denied: No Token Provided"))
  | Some token =>
      match jwt_verify env token (JWT_SECRET_KEY env) with
      | Some decoded => next (set_user decoded req)
      | None => ret (respond 403 (message "Invalid or Expired Token"))
      end
  end.

(** [POST /api/users/register] *)
Definition register (req : Request) : M Response :=
  let name := field "name" (body req) in
  let email := field "email" (body req) in
  let password := field "password" (body req) in
  let role := field "role" (body req) in
  if negb (truthy name) || negb (truthy email) || negb (truthy password)
     || negb (truthy role)
  then ret (respond 400 (error "All fields are required"))
  else
    try_catch
      (userCheck <- query (SQL.users_by_email (prepareValue email)) ;;
       if nonempty userCheck
       then ret (respond 400 (error "User already exists"))
       else
         salt <- genSalt 10 ;;
         hashedPassword <- lift (bcrypt_hash env password salt) ;;
         newUser <- query (SQL.insert_user (prepareValue name)
                             (prepareValue email) (Some hashedPassword)
                             (prepareValue role)) ;;
         ret (respond 201
                (obj [("message", Some (JsStr "User registered successfully"));
                      ("user", json_of_row <$> head newUser)])))
      server_error.

(** [POST /api/users/login]. The match on the rows is the test
    [user.rows.length === 0] followed by the reads of [user.rows[0]]. *)
Definition login (req : Request) : M Response :=
  let email := field "email" (body req) in
  let password := field "password" (body req) in
  if negb (truthy email) || negb (truthy password)
  then ret (respond 400 (error "All fields are required"))
  else
    try_catch
      (user <- query (SQL.users_by_email (prepareValue email)) ;;
       match user with
       | [] => ret (respond 400 (error "Invalid credentials"))
       | user0 :: _ =>
           isMatch <- lift (bcrypt_compare env password (col "password" user0)) ;;
           if negb isMatch
           then ret (respond 400 (error "Invalid credentials"))
           else
             token <- generateToken (col "id" user0) ;;
             ret (respond 200
                    (obj [("message", Some (JsStr "Login successful"));
                          ("token", Some (JsStr token))]))
       end)
      server_error.

(** [POST /api/courses] *)
Definition add_course (req : Request) : M Response :=
  let title := field "title" (body req) in
  let description := field "description" (body req) in
  let instructor_id := field "instructor_id" (body req) in
  if negb (truthy title) || negb (truthy instructor_id)
  then ret (respond 400 (error "Title and Instructor ID are required"))
  else
    try_catch
      (newCourse <- query (SQL.insert_course (prepareValue title)
                             (prepareValue description)
                             (prepareValue instructor_id)) ;;
       ret (respond 201
              (obj [("message", Some (JsStr "Course added successfully"));
                    ("course", json_of_row <$> head newCourse)])))
      server_error.

(** [PUT /api/courses/:id] *)
Definition edit_course (id : string) (req : Request) : M Response :=
  let title := field "title" (body req) in
  let description := field "description" (body req) in
  if negb (truthy title) && negb (truthy description)
  then ret (respond 400
              (error "At least one field (title or description) must be provided"))
  else
    try_catch
      (course <- query (SQL.course_by_id (Some id)) ;;
       if empty course
       then ret (respond 404 (error "Course not found"))
       else
         updatedCourse <- query (SQL.update_course (prepareValue title)
                                   (prepareValue description) (Some id)) ;;
         ret (respond 200
                (obj [("message", Some (JsStr "Course updated successfully"));
                      ("course", json_of_row <$> head updatedCourse)])))
      server_error.

(** [DELETE /api/courses/:id] *)
Definition delete_course (id : string) (req : Request) : M Response :=
  try_catch
    (course <- query (SQL.course_by_id (Some id)) ;;
     if empty course
     then ret (respond 404 (error "Course not found"))
     else
       _ <- query (SQL.delete_course (Some id)) ;;
       ret (respond 200 (message "Course deleted successfully")))
    server_error.

(** [GET /api/courses/:instructorId] *)
Definition get_courses (instructorId : string) (req : Request)
  : M Response :=
  try_catch
    (courses <- query (SQL.courses_by_instructor (Some instructorId)) ;;
     ret (respond 200
            (JsObj [("courses", JsArr (List.map json_of_row courses))])))
    server_error.

(** [POST /api/enrollments] *)
Definition enroll (req : Request) : M Response :=
  let courseId := field "courseId" (body req) in
  let userId := field "userId" (body req) in
  if negb (truthy courseId) || negb (truthy userId)
  then ret (respond 400 (error "Course ID and User ID are required"))
  else
    try_catch
      (existingEnrollment <-
         query (SQL.enrollment_by_pair (prepareValue courseId)
                  (prepareValue userId)) ;;
       if nonempty existingEnrollment
       then ret (respond 400
                   (error "User is already enrolled in this course"))
       else
         newEnrollment <-
           query (SQL.insert_enrollment (prepareValue courseId)
                    (prepareValue userId)) ;;
         ret (respond 201
                (obj [("message", Some (JsStr "Enrollment successful"));
                      ("enrollment", json_of_row <$> head newEnrollment)])))
      server_error.

(** [DELETE /api/enrollments] *)
Definition disenroll (req : Request) : M Response :=
  let courseId := field "courseId" (body req) in
  let userId := field "userId" (body req) in
  if negb (truthy courseId) || negb (truthy userId)
  then ret (respond 400 (error "Course ID and User ID are required"))
  else
    try_catch
      (enrollment <-
         query (SQL.enrollment_by_pair (prepareValue courseId)
                  (prepareValue userId)) ;;
       if empty enrollment
       then ret (respond 404 (error "Enrollment not found"))
       else
         _ <- query (SQL.delete_enrollment (prepareValue courseId)
                       (prepareValue userId)) ;;
         ret (respond 200 (message "Disenrollment successful")))
      server_error.

(** [GET /api/enrollments/:userId] *)
Definition get_enrollments (userId : string) (req : Request)
  : M Response :=
  try_catch
    (enrollments <- query (SQL.enrolled_courses (Some userId)) ;;
     if empty enrollments
     then ret (respond 404 (message "No enrolled courses found"))
     else
       ret (respond 200
              (JsObj [("enrolledCourses",
                       JsArr (List.map json_of_row enrollments))])))
    server_error.

(** [POST /api/courses/:courseId/reviews] *)
Definition submit_review (courseId : string) (req : Request)
  : M Response :=
  let rating := field "rating" (body req) in
  let comment := field "comment" (body req) in
  let userId := field "userId" (body req) in
  if negb (truthy (JStr courseId)) || negb (truthy rating)
     || negb (truthy userId)
  then ret (respond 400
              (error "Course ID, Rating, and User ID are required"))
  else
    try_catch
      (newReview <-
         query (SQL.insert_review (Some courseId) (prepareValue userId)
                  (prepareValue rating) (prepareValue comment)) ;;
       ret (respond 201
              (obj [("message", Some (JsStr "Feedback submitted successfully"));
                    ("review", json_of_row <$> head newReview)])))
      server_error.

(** [PUT /api/courses/:courseId/reviews/:userId] *)
Definition update_review (courseId userId : string) (req : Request)
  : M Response :=
  let rating := field "rating" (body req) in
  let comment := field "comment" (body req) in
  if negb (truthy rating) && negb (truthy comment)
  then ret (respond 400
              (error "At least one field (rating or comment) must be provided"))
  else
    try_catch
      (existingReview <-
         query (SQL.review_by_pair (Some courseId) (Some userId)) ;;
       if empty existingReview
       then ret (respond 404 (error "Review not found"))
       else
         updatedReview <-
           query (SQL.update_review (prepareValue rating)
                    (prepareValue comment) (Some courseId) (Some userId)) ;;
         ret (respond 200
                (obj [("message", Some (JsStr "Review updated successfully"));
                      ("review", json_of_row <$> head updatedReview)])))
      server_error.

(** [GET /api/courses/:courseId/reviews] *)
Definition get_reviews (courseId : string) (req : Request) : M Response :=
  try_catch
    (reviews <- query (SQL.course_reviews (Some courseId)) ;;
     if empty reviews
     then ret (respond 404 (message "No reviews found for this course"))
     else
       ret (respond 200
              (JsObj [("reviews", JsArr (List.map json_of_row reviews))])))
    server_error.

(** The routing table: [app.METHOD(path, handler)] registers
    [(false, handler)], [app.METHOD(path, verifyToken, handler)] registers
    [(true, handler)]. *)
Definition routes (r : Route) : bool * (Request -> M Response) :=
  match r with
  | POST_users_register => (false, register)
  | POST_users_login => (false, login)
  | POST_courses => (true, add_course)
  | PUT_courses id => (true, edit_course id)
  | DELETE_courses id => (true, delete_course id)
  | GET_courses instructorId => (false, get_courses instructorId)
  | POST_enrollments => (true, enroll)
  | DELETE_enrollments => (true, disenroll)
  | GET_enrollments userId => (false, get_enrollments userId)
  | POST_reviews courseId => (false, submit_review courseId)
  | PUT_reviews courseId userId => (false, update_review courseId userId)
  | GET_reviews courseId => (false, get_reviews courseId)
  end.

Definition app (req : Request) : M Response :=
  let (auth, handler) := routes (route req) in
  if auth then verifyToken req handler else handler req.

End App.

(** A request as it reaches the application: [req.user] is not set. *)
Definition request (r : Route) (auth : option string)
    (b : gmap string jsval) : Request :=
  {| route := r; authorization := auth; body := b; user := None |}.

(** The next [n] queries meet no fault. *)
Definition quiet (n : nat) (w : World) : bool :=
  forallb negb (firstn n (faults w)).

(** The world after one query that met no fault and left [s] behind. *)
Definition after_query (s : Store) (w : World) : World :=
  {| db := s; faults := tail (faults w); rng := rng w |}.

(** The invariant of Enrollments: at most one row per
    (course_id, user_id) pair. *)
Definition enrollment_key (e : EnrollmentRow) : sqlval * sqlval :=
  (e_course_id e, e_user_id e).

Definition unique_enrollments (s : Store) : Prop :=
  List.NoDup (List.map enrollment_key (Enrollments s)).

(** A field counts as supplied when the request body holds a value for it
    other than [null]: the driver then sends a value, not [NULL]. *)
Definition supplied (v : jsval) : bool :=
  match prepareValue v with
  | Some _ => true
  | None => false
  end.

(** A stored value after a partial update: replaced when the field is
    supplied, retained otherwise. *)
Definition replace_supplied (v : jsval) (old : sqlval) : sqlval :=
  if supplied v then prepareValue v else old.

Definition edited (title description : jsval) (c : CourseRow) : CourseRow :=
  {| c_id := c_id c;
     c_title := replace_supplied title (c_title c);
     c_description := replace_supplied description (c_description c);
     c_instructor_id := c_instructor_id c |}.

(** The partial update of the courses whose id is [id]. *)
Definition edit_courses (id : string) (title description : jsval)
    (cs : list CourseRow) : list CourseRow :=
  List.map (fun c => if sql_eq (c_id c) (Some id)
                     then edited title description c else c) cs.

(** The partial-update property with "supplied" read as above, for a
    request on an existing course id whose queries meet no fault: as soon
    as one of title and description is supplied, the courses with that id
    are edited. *)
Definition partial_update_when_supplied (id : string) (req : Request)
    (w : World) : Prop :=
  (exists c, In c (Courses (db w)) /\ c_id c = Some id) ->
  quiet 2 w = true ->
  supplied (field "title" (body req))
  || supplied (field "description" (body req)) = true ->
  Courses (db (snd (edit_course id req w)))
  = edit_courses id (field "title" (body req))
      (field "description" (body req)) (Courses (db w)).

(** A computation that writes to the store only when it answers 200 or
    201: after any other answer, and after a throw, the store is the one
    it started from. *)
Definition writes_only_on_success (m : M Response) : Prop :=
  forall w,
    match m w with
    | (Ok r, w') => status r = 200%Z \/ status r = 201%Z \/ db w' = db w
    | (Throw, w') => db w' = db w
    end.

(** The statuses each route can answer with, read off its handler and,
    for a route registered with [verifyToken], off the middleware. *)
Definition possible_statuses (r : Route) : list Z :=
  match r with
  | POST_users_register => [201; 400; 500]
  | POST_users_login => [200; 400; 500]
  | POST_courses => [201; 400; 401; 403; 500]
  | PUT_courses _ => [200; 400; 401; 403; 404; 500]
  | DELETE_courses _ => [200; 401; 403; 404; 500]
  | GET_courses _ => [200; 500]
  | POST_enrollments => [201; 400; 401; 403; 500]
  | DELETE_enrollments => [200; 400; 401; 403; 404; 500]
  | GET_enrollments _ => [200; 404; 500]
  | POST_reviews _ => [201; 400; 500]
  | PUT_reviews _ _ => [200; 400; 404; 500]
  | GET_reviews _ => [200; 404; 500]
  end%Z.

(** The routes whose handler issues [SELECT] statements only. *)
Definition read_only (r : Route) : bool :=
  match r with
  | POST_users_login | GET_courses _ | GET_enrollments _ | GET_reviews _ =>
      true
  | _ => false
  end.

(** [s.includes(pat)] *)
Fixpoint includes (pat s : string) : bool :=
  match strip_prefix pat s with
  | Some _ => true
  | None =>
      match s with
      | "" => false
      | String _ s' => includes pat s'
      end
  end.

(** The world after a run that issued one more query without fault and
    left the store [s] and the generator state [g] behind. *)
Definition after (s : Store) (g : N) (w : World) : World :=
  {| db := s; faults := tail (faults w); rng := g |}.


(** The creation of a user by every registration that passes the presence
    check with an email that is not taken, when no query meets a fault:
    the answer is 201 and Users has one row more. *)
Definition registration_creates_the_user (env : Env) (w : World)
    (b : gmap string jsval) : Prop :=
  truthy (field "name" b) = true ->
  truthy (field "email" b) = true ->
  truthy (field "password" b) = true ->
  truthy (field "role" b) = true ->
  (forall u, In u (Users (db w)) ->
             u_email u <> prepareValue (field "email" b)) ->
  quiet 2 w = true ->
  exists r,
    fst (app env (request POST_users_register None b) w) = Ok r
    /\ status r = 201%Z
    /\ length (Users (db (snd (app env (request POST_users_register None b)
                                 w))))
       = S (length (Users (db w))).

(** The four tables of [s'] hold the rows of [s]; nothing is said of the
    id sequences. *)
Definition same_tables (s s' : Store) : Prop :=
  Users s' = Users s /\ Courses s' = Courses s
  /\ Enrollments s' = Enrollments s /\ Reviews s' = Reviews s.

(** ** A sample deployment

    Concrete packages and stores on which the statements below are
    exercised. The sample token of a user is ["tok:"] followed by the id;
    the sample hash of a password is ["h$"] followed by the password. As
    [bcrypt] does, the sample [hash] and [compare] reject data that is not
    a string. *)
Module Sample.

Definition sign (id : sqlval) (secret : option string) (expiresIn : string)
  : option string :=
  match id, secret with
  | Some i, Some _ => Some (String.append "tok:" i)
  | _, _ => None
  end.

Definition verify (token : string) (secret : option string) : option json :=
  match strip_prefix "tok:" token, secret with
  | Some i, Some _ => Some (JsObj [("id", JsStr i)])
  | _, _ => None
  end.

Definition hash (data : jsval) (salt : string) : option string :=
  match data with
  | JStr s => Some (String.append "h$" s)
  | _ => None
  end.

Definition compare (data : jsval) (h : sqlval) : option bool :=
  match data, h with
  | JStr s, Some h' => Some (h' =? String.append "h$" s)
  | _, _ => None
  end.

Definition env : Env :=
  {| JWT_SECRET_KEY := Some "secret";
     jwt_sign := sign;
     jwt_verify := verify;
     bcrypt_genSalt := fun _ g => ("salt", N.succ g);
     bcrypt_hash := hash;
     bcrypt_compare := compare |}.

Definition alice : UserRow :=
  {| u_id := Some "1"; u_name := Some "Alice";
     u_email := Some "alice@example.org";
     u_password := Some "h$wonderland"; u_role := Some "student" |}.

Definition algebra : CourseRow :=
  {| c_id := Some "1"; c_title := Some "Algebra";
     c_description := Some "Groups and rings";
     c_instructor_id := Some "7" |}.

Definition store : Store :=
  {| Users := [alice];
     Courses := [algebra];
     Enrollments := [{| e_course_id := Some "1"; e_user_id := Some "1" |}];
     Reviews := [{| r_course_id := Some "1"; r_user_id := Some "1";
                    r_rating := Some "5"; r_comment := Some "Clear" |}];
     users_id_seq := 2;
     courses_id_seq := 2 |}.

Definition world : World := {| db := store; faults := []; rng := 0 |}.

(** A store in which a user that is not registered has a review of
    course 1 and an enrollment in a course that does not exist. *)
Definition dangling : Store :=
  {| Users := [alice];
     Courses := [algebra];
     Enrollments := [{| e_course_id := Some "9"; e_user_id := Some "1" |}];
     Reviews := [{| r_course_id := Some "1"; r_user_id := Some "9";
                    r_rating := Some "1"; r_comment := None |}];
     users_id_seq := 2;
     courses_id_seq := 2 |}.

Definition dangling_world : World :=
  {| db := dangling; faults := []; rng := 0 |}.

End Sample.

(** ** The handlers on the sample deployment *)

Example bearer_strips_the_scheme :
  bearer (request POST_courses (Some "Bearer tok:1") ∅) = Some "tok:1"
  /\ bearer (request POST_courses (Some "tok:1") ∅) = Some "tok:1"
  /\ bearer (request POST_courses (Some "Bearer ") ∅) = Some ""
  /\ bearer (request POST_courses None ∅) = None.
Proof. repeat split. Qed.

Example login_succeeds :
  fst (app Sample.env
         (request POST_users_login None
            {[ "email" := JStr "alice@example.org";
               "password" := JStr "wonderland" ]})
         Sample.world)
  = Ok (respond 200
          (JsObj [("message", JsStr "Login successful");
                  ("token", JsStr "tok:1")])).
Proof. reflexivity. Qed.

Example login_with_a_number_as_password_is_a_server_error :
  fst (app Sample.env
         (request POST_users_login None
            {[ "email" := JStr "alice@example.org"; "password" := JNum 7 ]})
         Sample.world)
  = Ok (respond 500 (error "Server error")).
Proof. reflexivity. Qed.

Example add_course_needs_a_token :
  fst (app Sample.env
         (request POST_courses None
            {[ "title" := JStr "Topology"; "instructor_id" := JNum 7 ]})
         Sample.world)
  = Ok (respond 401 (message "Access Denied: No Token Provided"))
  /\ Courses
       (db (snd (app Sample.env
                   (request POST_courses (Some "Bearer tok:1")
                      {[ "title" := JStr "Topology";
                         "instructor_id" := JNum 7 ]})
                   Sample.world)))
     = [Sample.algebra;
        {| c_id := Some "2"; c_title := Some "Topology";
           c_description := None; c_instructor_id := Some "7" |}].
Proof. split; reflexivity. Qed.

Example a_fault_is_a_server_error :
  app Sample.env (request (GET_courses "7") None ∅)
    {| db := Sample.store; faults := [true]; rng := 0 |}
  = (Ok (respond 500 (error "Server error")), Sample.world).
Proof. reflexivity. Qed.

(** ** Basic facts *)

Lemma field_insert_eq k v (b : gmap string jsval) :
  field k (<[k := v]> b) = v.
Proof. unfold field. by rewrite lookup_insert_eq. Qed.

Lemma field_insert_ne k k' v (b : gmap string jsval) :
  k <> k' -> field k' (<[k := v]> b) = field k' b.
Proof. intros Hne. unfold field. by rewrite lookup_insert_ne. Qed.

Lemma field_delete_eq k (b : gmap string jsval) :
  field k (delete k b) = JUndefined.
Proof. unfold field. by rewrite lookup_delete_eq. Qed.

Lemma field_delete_ne k k' (b : gmap string jsval) :
  k <> k' -> field k' (delete k b) = field k' b.
Proof. intros Hne. unfold field. by rewrite lookup_delete_ne. Qed.

Lemma quiet_S n w :
  quiet (S n) w = true ->
  quiet 1 w = true /\ forall s, quiet n (after_query s w) = true.
Proof.
  unfold quiet, after_query. destruct (faults w) as [|f fs]; simpl.
  - intros _. split; [done|]. intros _. by destruct n.
  - intros [Hf Hfs]%andb_true_iff. rewrite Hf. by split.
Qed.

(** A query that meets no fault runs its statement. *)
Lemma query_quiet {A : Type} (stmt : Store -> A * Store) w :
  quiet 1 w = true ->
  query stmt w = (Ok (fst (stmt (db w))), after_query (snd (stmt (db w))) w).
Proof.
  unfold quiet, query, after_query.
  destruct (faults w) as [|[] fs]; simpl; [done|discriminate|done].
Qed.

Lemma sql_eq_true (a b : sqlval) :
  sql_eq a b = true <-> exists x, a = Some x /\ b = Some x.
Proof.
  destruct a as [x|], b as [y|]; simpl; split;
    try discriminate; try (intros (z & ? & ?); discriminate).
  - intros ->%String.eqb_eq. eauto.
  - intros (z & [= ->] & [= ->]). apply String.eqb_refl.
Qed.

Lemma truthy_prepareValue (v : jsval) :
  truthy v = true -> exists x, prepareValue v = Some x.
Proof. destruct v as [| |[]| | |]; simpl; try discriminate; eauto. Qed.

Lemma filter_nil_iff {A : Type} (f : A -> bool) (l : list A) :
  List.filter f l = [] <-> forall x, In x l -> f x = false.
Proof.
  induction l as [|a l IH]; simpl; [tauto|].
  destruct (f a) eqn:Ha; split.
  - discriminate.
  - intros H. specialize (H a (or_introl eq_refl)). congruence.
  - intros Hnil x [<- | Hx]; [done|]. by apply IH.
  - intros H. apply IH. auto.
Qed.

Lemma filter_cons_inv {A : Type} (f : A -> bool) (l : list A) x rest :
  List.filter f l = x :: rest -> In x l /\ f x = true.
Proof.
  intros H. apply List.filter_In. rewrite H. by left.
Qed.

(** *** The auth middleware *)

(** C1. A route registered with [verifyToken] serves a request through
    the middleware, and the middleware, whatever comes [next]: answers 401
    when no token comes out of the Authorization header (no header, or
    nothing left once the first ["Bearer "] is removed); answers 403 when a
    token is there and [jwt.verify] throws; in both cases the world is
    untouched and [next] does not run. Otherwise it runs [next] on the
    request whose [user] is the decoded payload and whose route, header and
    body are those received. *)
Theorem verifyToken_guards_protected_routes (env : Env) (req : Request)
    (w : World) :
  fst (routes env (route req)) = true ->
  app env req w = verifyToken env req (snd (routes env (route req))) w
  /\ forall next : Request -> M Response,
       (bearer req = None \/ bearer req = Some "" ->
        verifyToken env req next w =
          (Ok (respond 401 (message "Access Denied: No Token Provided")), w))
       /\ (forall token,
             bearer req = Some token -> token <> "" ->
             jwt_verify env token (JWT_SECRET_KEY env) = None ->
             verifyToken env req next w =
               (Ok (respond 403 (message "Invalid or Expired Token")), w))
       /\ (forall token decoded,
             bearer req = Some token -> token <> "" ->
             jwt_verify env token (JWT_SECRET_KEY env) = Some decoded ->
             verifyToken env req next w =
               next {| route := route req;
                       authorization := authorization req;
                       body := body req;
                       user := Some decoded |} w).
Proof.
  intros Hauth. split.
  - unfold app. destruct (routes env (route req)) as [auth handler].
    simpl in Hauth. by subst auth.
  - intros next. unfold verifyToken. repeat split.
    + intros [-> | ->]; reflexivity.
    + intros token -> Hne ->. destruct token; [congruence | reflexivity].
    + intros token decoded -> Hne ->. destruct token; [congruence|].
      reflexivity.
Qed.

Lemma verifyToken_guards_protected_routes_witness :
  app Sample.env (request POST_enrollments None ∅) Sample.world =
    (Ok (respond 401 (message "Access Denied: No Token Provided")),
     Sample.world)
  /\ app Sample.env (request POST_enrollments (Some "Bearer forged") ∅)
       Sample.world =
       (Ok (respond 403 (message "Invalid or Expired Token")), Sample.world)
  /\ app Sample.env (request POST_enrollments (Some "Bearer tok:1") ∅)
       Sample.world
     = enroll {| route := POST_enrollments;
                 authorization := Some "Bearer tok:1";
                 body := ∅;
                 user := Some (JsObj [("id", JsStr "1")]) |} Sample.world
  /\ verifyToken Sample.env
       (request POST_enrollments (Some "Bearer tok:1") ∅)
       (fun req' => ret (respond 200 (obj [("user", user req')])))
       Sample.world
     = (Ok (respond 200 (JsObj [("user", JsObj [("id", JsStr "1")])])),
        Sample.world).
Proof.
  split; [|split; [|split]].
  - destruct (verifyToken_guards_protected_routes Sample.env
                (request POST_enrollments None ∅) Sample.world eq_refl)
      as [Happ Hnext].
    rewrite Happ. apply Hnext. left. reflexivity.
  - destruct (verifyToken_guards_protected_routes Sample.env
                (request POST_enrollments (Some "Bearer forged") ∅)
                Sample.world eq_refl) as [Happ Hnext].
    rewrite Happ.
    apply (proj1 (proj2 (Hnext _)) "forged");
      [reflexivity | discriminate | reflexivity].
  - destruct (verifyToken_guards_protected_routes Sample.env
                (request POST_enrollments (Some "Bearer tok:1") ∅)
                Sample.world eq_refl) as [Happ Hnext].
    rewrite Happ.
    apply (proj2 (proj2 (Hnext _)) "tok:1" (JsObj [("id", JsStr "1")]));
      [reflexivity | discriminate | reflexivity].
  - destruct (verifyToken_guards_protected_routes Sample.env
                (request POST_enrollments (Some "Bearer tok:1") ∅)
                Sample.world eq_refl) as [_ Hnext].
    rewrite (proj2 (proj2 (Hnext _)) "tok:1" (JsObj [("id", JsStr "1")]));
      [reflexivity | reflexivity | discriminate | reflexivity].
Defined.

(** *** Login *)




(** *** Registration *)

(** C3, the statement as worded fails. A registration whose four fields
    are truthy, whose email is not taken and whose password is the number
    1234: [bcrypt.hash] rejects data that is not a string, the answer is
    500 "Server error" and no row is inserted. *)
Lemma register_number_password_counterexample :
  ~ registration_creates_the_user Sample.env Sample.world
      {[ "name" := JStr "Bob"; "email" := JStr "bob@example.org";
         "password" := JNum 1234; "role" := JStr "student" ]}.
Proof.
  unfold registration_creates_the_user. intros H.
  do 4 (lapply H; [clear H; intros H | reflexivity]).
  lapply H; [clear H; intros H | intros u [<- | []]; discriminate].
  destruct (H eq_refl) as (r & Hr & Hstatus & _).
  vm_compute in Hr. injection Hr as <-. discriminate Hstatus.
Qed.

(** C3, amended. A registration that passes the presence check of its
    four fields:
    - when a user with that email exists and the lookup meets no fault,
      the answer is 400 "User already exists" and the store is as before;
    - when none exists, both queries meet no fault and [bcrypt.hash]
      returns a hash (it does for a string password), the answer is 201
      with a user made of id, name, email and role only, exactly one row
      is appended to Users (it holds the hash, not the password), and the
      other tables are as before. *)
Theorem register_conflict_or_created (env : Env) (w : World)
    (a : option string) (b : gmap string jsval) :
  truthy (field "name" b) = true ->
  truthy (field "email" b) = true ->
  truthy (field "password" b) = true ->
  truthy (field "role" b) = true ->
  ((exists u, In u (Users (db w)) /\
              u_email u = prepareValue (field "email" b)) ->
   quiet 1 w = true ->
   app env (request POST_users_register a b) w
   = (Ok (respond 400 (error "User already exists")),
      after_query (db w) w))
  /\ ((forall u, In u (Users (db w)) ->
                 u_email u <> prepareValue (field "email" b)) ->
      quiet 2 w = true ->
      forall hashed,
        bcrypt_hash env (field "password" b)
          (fst (bcrypt_genSalt env 10 (rng w))) = Some hashed ->
        let id := pretty (users_id_seq (db w)) in
        let w' := snd (app env (request POST_users_register a b) w) in
        fst (app env (request POST_users_register a b) w)
        = Ok (respond 201
                (JsObj [("message", JsStr "User registered successfully");
                        ("user",
                         JsObj [("id", JsStr id);
                                ("name",
                                 json_of_sql (prepareValue (field "name" b)));
                                ("email",
                                 json_of_sql (prepareValue (field "email" b)));
                                ("role",
                                 json_of_sql (prepareValue (field "role" b)))])]))
        /\ Users (db w')
           = Users (db w)
             ++ [{| u_id := Some id;
                    u_name := prepareValue (field "name" b);
                    u_email := prepareValue (field "email" b);
                    u_password := Some hashed;
                    u_role := prepareValue (field "role" b) |}]
        /\ Courses (db w') = Courses (db w)
        /\ Enrollments (db w') = Enrollments (db w)
        /\ Reviews (db w') = Reviews (db w)).
Proof.
  intros Hn He Hp Hr.
  destruct (truthy_prepareValue _ He) as [e Hpe].
  unfold app, request; simpl. unfold register; simpl.
  rewrite Hn, He, Hp, Hr; simpl. unfold try_catch, bind. split.
  - intros (u & Hu & Hue) Hq. rewrite (query_quiet _ _ Hq). simpl.
    destruct (List.filter _ (Users (db w))) as [|u0 rest] eqn:Hf; [|done].
    pose proof (proj1 (filter_nil_iff _ _) Hf u Hu) as Hfalse.
    simpl in Hfalse. rewrite Hue, Hpe in Hfalse. simpl in Hfalse.
    by rewrite String.eqb_refl in Hfalse.
  - intros Hnone Hq hashed Hh.
    apply quiet_S in Hq as [Hq1 Hq2].
    rewrite (query_quiet _ _ Hq1). simpl.
    replace (List.filter _ (Users (db w))) with (@nil UserRow).
    2:{ symmetry. apply filter_nil_iff. intros x Hx.
        destruct (sql_eq (u_email x) _) eqn:Heq; [|done].
        apply sql_eq_true in Heq as (y & Hy & Hy').
        destruct (Hnone x Hx). congruence. }
    simpl. unfold genSalt. simpl. rewrite Hh. simpl.
    rewrite query_quiet by apply (Hq2 (db w)).
    simpl. rewrite Hpe. simpl. by repeat split.
Qed.

Lemma register_conflict_or_created_witness :
  app Sample.env
    (request POST_users_register None
       {[ "name" := JStr "Alice"; "email" := JStr "alice@example.org";
          "password" := JStr "rabbit"; "role" := JStr "student" ]})
    Sample.world
  = (Ok (respond 400 (error "User already exists")), Sample.world)
  /\ Users (db (snd (app Sample.env
                      (request POST_users_register None
                         {[ "name" := JStr "Bob";
                            "email" := JStr "bob@example.org";
                            "password" := JStr "builder";
                            "role" := JStr "instructor" ]})
                      Sample.world)))
     = [Sample.alice;
        {| u_id := Some "2"; u_name := Some "Bob";
           u_email := Some "bob@example.org";
           u_password := Some "h$builder"; u_role := Some "instructor" |}].
Proof.
  split.
  - apply (register_conflict_or_created Sample.env Sample.world None
             {[ "name" := JStr "Alice"; "email" := JStr "alice@example.org";
                "password" := JStr "rabbit"; "role" := JStr "student" ]});
      try reflexivity.
    exists Sample.alice. split; [left|]; reflexivity.
  - pose proof (register_conflict_or_created Sample.env Sample.world None
                  {[ "name" := JStr "Bob"; "email" := JStr "bob@example.org";
                     "password" := JStr "builder";
                     "role" := JStr "instructor" ]}) as Hreg.
    do 4 (lapply Hreg; [clear Hreg; intros Hreg | reflexivity]).
    destruct Hreg as [_ Hcreated].
    assert (Hfresh : forall u, In u (Users (db Sample.world)) ->
              u_email u <> Some "bob@example.org").
    { intros u [<- | []]. discriminate. }
    destruct (Hcreated Hfresh eq_refl "h$builder" eq_refl)
      as (_ & Husers & _).
    exact Husers.
Defined.

(** *** Enrollments *)

Lemma enrollment_matches_iff (c u : string) (e : EnrollmentRow) :
  SQL.enrollment_matches (Some c) (Some u) e = true
  <-> enrollment_key e = (Some c, Some u).
Proof.
  unfold SQL.enrollment_matches, enrollment_key.
  rewrite andb_true_iff, !sql_eq_true. split.
  - intros [(x & -> & [= ->]) (y & -> & [= ->])]. reflexivity.
  - intros [= H1 H2]. rewrite H1, H2. split; eauto.
Qed.

Lemma enrollment_filter_nil (c u : string) (es : list EnrollmentRow) :
  List.filter (SQL.enrollment_matches (Some c) (Some u)) es = []
  <-> ~ In (Some c, Some u) (List.map enrollment_key es).
Proof.
  rewrite filter_nil_iff, in_map_iff. split.
  - intros H (e & Hk & He). apply enrollment_matches_iff in Hk.
    specialize (H e He). congruence.
  - intros H e He.
    destruct (SQL.enrollment_matches (Some c) (Some u) e) eqn:Hm; [|done].
    destruct H. exists e. split; [|done]. by apply enrollment_matches_iff.
Qed.

Lemma NoDup_snoc {A : Type} (l : list A) (x : A) :
  List.NoDup l -> ~ In x l -> List.NoDup (l ++ [x]).
Proof.
  intros Hl Hx. apply List.NoDup_rev in Hl.
  rewrite <- (List.rev_involutive (l ++ [x])). apply List.NoDup_rev.
  rewrite List.rev_app_distr. simpl. constructor; [|done].
  by rewrite <- List.in_rev.
Qed.

Lemma NoDup_map_filter {A B : Type} (f : A -> B) (p : A -> bool)
    (l : list A) :
  List.NoDup (List.map f l) -> List.NoDup (List.map f (List.filter p l)).
Proof.
  induction l as [|a l IH]; simpl; [done|].
  intros Hnd. apply List.NoDup_cons_iff in Hnd as [Hnotin Hnd].
  destruct (p a); simpl; [|by apply IH].
  constructor; [|by apply IH].
  intros Hin. apply Hnotin. apply in_map_iff in Hin as (y & Hy & Hin).
  apply List.filter_In in Hin as [Hin _]. apply in_map_iff. eauto.
Qed.

Lemma enroll_preserves_unique (req : Request) (w : World) :
  unique_enrollments (db w) ->
  unique_enrollments (db (snd (enroll req w))).
Proof.
  intros Hinv. unfold enroll.
  destruct (truthy (field "courseId" (body req))) eqn:Hc; [|done].
  destruct (truthy (field "userId" (body req))) eqn:Hu; [|done].
  destruct (truthy_prepareValue _ Hc) as [c ->].
  destruct (truthy_prepareValue _ Hu) as [u ->].
  simpl. unfold try_catch, bind, query.
  destruct (faults w) as [|[] fs]; simpl; try done.
  all: destruct (List.filter _ (Enrollments (db w))) as [|e0 rest] eqn:Hf;
    simpl; try done.
  all: apply enrollment_filter_nil in Hf.
  all: try (destruct fs as [|[] fs]; simpl; try done).
  all: unfold unique_enrollments; simpl; rewrite List.map_app; simpl.
  all: by apply NoDup_snoc.
Qed.

Lemma disenroll_preserves_unique (req : Request) (w : World) :
  unique_enrollments (db w) ->
  unique_enrollments (db (snd (disenroll req w))).
Proof.
  intros Hinv. unfold disenroll.
  destruct (negb _ || negb _); [done|].
  unfold try_catch, bind, query.
  destruct (faults w) as [|[] fs]; simpl; try done.
  all: destruct (empty _); simpl; try done.
  all: try (destruct fs as [|[] fs]; simpl; try done).
  all: by apply NoDup_map_filter.
Qed.

(** C4. An enroll request that passes the presence check: when a row with
    its (course_id, user_id) pair exists and the lookup meets no fault, the
    answer is 400 and the store is as before; when none exists and both
    queries meet no fault, the answer is 201 and the pair is appended to
    Enrollments. And whatever the token, the body and the faults, a request
    to enroll or to disenroll served from a store with at most one
    Enrollment per pair leaves a store with at most one Enrollment per
    pair. *)
Theorem enroll_conflict_or_insert_keeps_pairs_unique (env : Env) :
  (forall (req : Request) (w : World) (c u : string),
     prepareValue (field "courseId" (body req)) = Some c ->
     prepareValue (field "userId" (body req)) = Some u ->
     truthy (field "courseId" (body req)) = true ->
     truthy (field "userId" (body req)) = true ->
     (In (Some c, Some u) (List.map enrollment_key (Enrollments (db w))) ->
      quiet 1 w = true ->
      enroll req w
      = (Ok (respond 400 (error "User is already enrolled in this course")),
         after_query (db w) w))
     /\ (~ In (Some c, Some u)
             (List.map enrollment_key (Enrollments (db w))) ->
         quiet 2 w = true ->
         fst (enroll req w)
         = Ok (respond 201
                 (JsObj [("message", JsStr "Enrollment successful");
                         ("enrollment",
                          JsObj [("course_id", JsStr c);
                                 ("user_id", JsStr u)])]))
         /\ db (snd (enroll req w))
            = set_Enrollments
                (fun es => es ++ [{| e_course_id := Some c;
                                     e_user_id := Some u |}])
                (db w)))
  /\ (forall (req : Request) (w : World),
        route req = POST_enrollments \/ route req = DELETE_enrollments ->
        unique_enrollments (db w) ->
        unique_enrollments (db (snd (app env req w)))).
Proof.
  split.
  - intros req w c u Hpc Hpu Hc Hu. unfold enroll.
    rewrite Hc, Hu, Hpc, Hpu. simpl. unfold try_catch, bind. split.
    + intros Hin Hq. rewrite (query_quiet _ _ Hq). simpl.
      destruct (List.filter _ (Enrollments (db w))) as [|e0 rest] eqn:Hf;
        [|done].
      by apply enrollment_filter_nil in Hf.
    + intros Hnotin Hq. apply quiet_S in Hq as [Hq1 Hq2].
      rewrite (query_quiet _ _ Hq1). simpl.
      apply enrollment_filter_nil in Hnotin. rewrite Hnotin. simpl.
      rewrite query_quiet by apply (Hq2 (db w)). by simpl.
  - intros req w Hroute Hinv. unfold app.
    destruct Hroute as [-> | ->]; simpl; unfold verifyToken.
    all: destruct (bearer req) as [[|ch token]|]; simpl; try done.
    all: destruct (jwt_verify env _ _); simpl; try done.
    + by apply enroll_preserves_unique.
    + by apply disenroll_preserves_unique.
Qed.

Lemma enroll_conflict_or_insert_keeps_pairs_unique_witness :
  enroll (request POST_enrollments None
            {[ "courseId" := JNum 1; "userId" := JStr "1" ]}) Sample.world
  = (Ok (respond 400 (error "User is already enrolled in this course")),
     Sample.world)
  /\ Enrollments
       (db (snd (enroll (request POST_enrollments None
                           {[ "courseId" := JNum 1; "userId" := JStr "2" ]})
                   Sample.world)))
     = [{| e_course_id := Some "1"; e_user_id := Some "1" |};
        {| e_course_id := Some "1"; e_user_id := Some "2" |}]
  /\ unique_enrollments
       (db (snd (app Sample.env
                   (request DELETE_enrollments (Some "Bearer tok:1")
                      {[ "courseId" := JNum 1; "userId" := JStr "1" ]})
                   Sample.world))).
Proof.
  pose proof (enroll_conflict_or_insert_keeps_pairs_unique Sample.env)
    as [Henroll Hinv].
  split; [|split].
  - pose proof (Henroll
                  (request POST_enrollments None
                     {[ "courseId" := JNum 1; "userId" := JStr "1" ]})
                  Sample.world "1" "1") as H.
    do 4 (lapply H; [clear H; intros H | reflexivity]).
    apply (proj1 H); [left|]; reflexivity.
  - pose proof (Henroll
                  (request POST_enrollments None
                     {[ "courseId" := JNum 1; "userId" := JStr "2" ]})
                  Sample.world "1" "2") as H.
    do 4 (lapply H; [clear H; intros H | reflexivity]).
    destruct (proj2 H) as [_ Hdb]; [|reflexivity|].
    + intros [[=] | []].
    + rewrite Hdb. reflexivity.
  - apply Hinv; [right; reflexivity|].
    unfold unique_enrollments. simpl. constructor; [|constructor].
    intros [].
Defined.

(** *** Course update *)

Lemma set_course_edited (title description : jsval) (c : CourseRow) :
  SQL.set_course (prepareValue title) (prepareValue description) c
  = edited title description c.
Proof.
  unfold SQL.set_course, edited, replace_supplied, supplied, COALESCE.
  by destruct (prepareValue title), (prepareValue description).
Qed.

Lemma update_course_edits id title description (s : Store) :
  SQL.update_course (prepareValue title) (prepareValue description)
    (Some id) s
  = (List.map (fun c => course_row (edited title description c))
       (List.filter (fun c => sql_eq (c_id c) (Some id)) (Courses s)),
     set_Courses (edit_courses id title description) s).
Proof.
  unfold SQL.update_course, set_Courses, edit_courses. f_equal.
  - apply List.map_ext. intros c. by rewrite set_course_edited.
  - f_equal. apply List.map_ext. intros c. by rewrite set_course_edited.
Qed.

Lemma edit_courses_frame {B : Type} (f : CourseRow -> B) id title description
    (cs : list CourseRow) :
  (forall c, f (edited title description c) = f c) ->
  List.map f (edit_courses id title description cs) = List.map f cs.
Proof.
  intros Hf. unfold edit_courses. rewrite List.map_map.
  apply List.map_ext. intros c. by destruct (sql_eq _ _).
Qed.

(** C5, the statement as worded fails: course 1 exists and the request
    supplies the title [""], yet the answer is the 400 of the presence
    check and the stored title stays as it was. *)
Lemma edit_course_supplied_empty_title_counterexample :
  ~ partial_update_when_supplied "1"
      (request (PUT_courses "1") None {[ "title" := JStr "" ]})
      Sample.world.
Proof.
  unfold partial_update_when_supplied. intros H.
  lapply H; [clear H; intros H|].
  2:{ exists Sample.algebra. split; [left|]; reflexivity. }
  specialize (H eq_refl eq_refl). vm_compute in H. discriminate H.
Qed.

(** A falsy title next to a truthy description passes the presence check
    and is written: the empty string is a value, not [NULL]. *)
Example edit_course_empty_title_is_written :
  Courses (db (snd (edit_course "1"
                      (request (PUT_courses "1") None
                         {[ "title" := JStr "";
                            "description" := JStr "Fields" ]})
                      Sample.world)))
  = [{| c_id := Some "1"; c_title := Some "";
        c_description := Some "Fields"; c_instructor_id := Some "7" |}].
Proof. reflexivity. Qed.

(** C5, amended. A course update on an existing id that passes the
    presence check (title or description truthy) and whose two queries meet
    no fault answers 200 with the first updated row and edits the courses
    with that id: a field that is absent or [null] retains its stored
    value, a field with any other value, falsy ones included, is replaced.
    The id and instructor_id columns and the other tables are as before;
    in particular an update without a title leaves every title as it
    was. *)
Theorem edit_course_partial_update (id : string) (req : Request)
    (w : World) :
  let title := field "title" (body req) in
  let description := field "description" (body req) in
  let w' := snd (edit_course id req w) in
  truthy title || truthy description = true ->
  (exists c, In c (Courses (db w)) /\ c_id c = Some id) ->
  quiet 2 w = true ->
  (exists c rest,
      List.filter (fun c => sql_eq (c_id c) (Some id)) (Courses (db w))
      = c :: rest
      /\ fst (edit_course id req w)
         = Ok (respond 200
                 (JsObj [("message", JsStr "Course updated successfully");
                         ("course",
                          json_of_row
                            (course_row (edited title description c)))])))
  /\ db w' = set_Courses (edit_courses id title description) (db w)
  /\ List.map c_id (Courses (db w')) = List.map c_id (Courses (db w))
  /\ List.map c_instructor_id (Courses (db w'))
     = List.map c_instructor_id (Courses (db w))
  /\ (supplied title = false ->
      List.map c_title (Courses (db w')) = List.map c_title (Courses (db w)))
  /\ (supplied description = false ->
      List.map c_description (Courses (db w'))
      = List.map c_description (Courses (db w))).
Proof.
  intros title description w' Hguard (c0 & Hc0 & Hid) Hq.
  apply quiet_S in Hq as [Hq1 Hq2].
  assert (Hrun :
    edit_course id req w
    = (Ok (respond 200
             (obj [("message", Some (JsStr "Course updated successfully"));
                   ("course",
                    json_of_row <$>
                      head (List.map
                              (fun c => course_row (edited title description c))
                              (List.filter
                                 (fun c => sql_eq (c_id c) (Some id))
                                 (Courses (db w)))))])),
       after_query (set_Courses (edit_courses id title description) (db w))
         (after_query (db w) w))).
  { unfold edit_course. fold title description.
    replace (negb (truthy title) && negb (truthy description)) with false
      by (destruct (truthy title), (truthy description); done).
    unfold try_catch, bind. rewrite (query_quiet _ _ Hq1). simpl.
    destruct (List.filter _ (Courses (db w))) as [|c rest] eqn:Hf.
    { pose proof (proj1 (filter_nil_iff _ _) Hf c0 Hc0) as Hfalse.
      simpl in Hfalse. rewrite Hid in Hfalse. simpl in Hfalse.
      by rewrite String.eqb_refl in Hfalse. }
    simpl. rewrite query_quiet by apply (Hq2 (db w)).
    rewrite update_course_edits. simpl. by rewrite Hf. }
  assert (Hdb : db w'
                = set_Courses (edit_courses id title description) (db w)).
  { subst w'. by rewrite Hrun. }
  split; [|split; [exact Hdb|]].
  - destruct (List.filter (fun c => sql_eq (c_id c) (Some id))
                (Courses (db w))) as [|c rest] eqn:Hf.
    { pose proof (proj1 (filter_nil_iff _ _) Hf c0 Hc0) as Hfalse.
      simpl in Hfalse. rewrite Hid in Hfalse. simpl in Hfalse.
      by rewrite String.eqb_refl in Hfalse. }
    exists c, rest. split; [done|]. by rewrite Hrun.
  - rewrite Hdb. simpl. repeat split.
    + by apply edit_courses_frame.
    + by apply edit_courses_frame.
    + intros Hs. apply edit_courses_frame. intros c. simpl.
      unfold replace_supplied. by rewrite Hs.
    + intros Hs. apply edit_courses_frame. intros c. simpl.
      unfold replace_supplied. by rewrite Hs.
Qed.

Lemma edit_course_partial_update_witness :
  Courses (db (snd (edit_course "1"
                      (request (PUT_courses "1") None
                         {[ "description" := JStr "Fields" ]})
                      Sample.world)))
  = [{| c_id := Some "1"; c_title := Some "Algebra";
        c_description := Some "Fields"; c_instructor_id := Some "7" |}]
  /\ List.map c_title
       (Courses (db (snd (edit_course "1"
                            (request (PUT_courses "1") None
                               {[ "description" := JStr "Fields" ]})
                            Sample.world))))
     = [Some "Algebra"].
Proof.
  pose proof (edit_course_partial_update "1"
                (request (PUT_courses "1") None
                   {[ "description" := JStr "Fields" ]})
                Sample.world) as H.
  simpl in H.
  lapply H; [clear H; intros H | reflexivity].
  lapply H; [clear H; intros H |].
  2:{ exists Sample.algebra. split; [left|]; reflexivity. }
  specialize (H eq_refl).
  destruct H as (_ & Hdb & _ & _ & Htitle & _).
  split.
  - rewrite Hdb. reflexivity.
  - apply Htitle. reflexivity.
Defined.

(** *** Disenrollment *)

Lemma enrolled_after_delete (c u : string) (s : Store) :
  Forall (fun c' => c_id c' <> Some c)
    (SQL.enrolled (Some u) (snd (SQL.delete_enrollment (Some c) (Some u) s))).
Proof.
  apply List.Forall_forall. intros c' Hin. unfold SQL.enrolled in Hin.
  apply in_flat_map in Hin as (c1 & _ & Hin).
  apply in_map_iff in Hin as (e & -> & He).
  apply List.filter_In in He as [He Hjoin]. simpl in He.
  apply List.filter_In in He as [_ Hkept].
  apply andb_true_iff in Hjoin as [Hon Hwhere].
  apply sql_eq_true in Hon as (x & Hx & Hx').
  intros Hc1. apply negb_true_iff in Hkept.
  unfold SQL.enrollment_matches in Hkept.
  rewrite Hwhere, andb_true_r in Hkept.
  rewrite Hx', <- Hx, Hc1 in Hkept. simpl in Hkept.
  by rewrite String.eqb_refl in Hkept.
Qed.

(** C6. A disenroll request that passes the presence check: when no row
    has its (course_id, user_id) pair and the lookup meets no fault, the
    answer is 404 and the store is as before; when one has and both queries
    meet no fault, the answer is 200 "Disenrollment successful", the rows
    with that pair are deleted and nothing else changes, and a listing of
    that user's enrolled courses served from the resulting store shows the
    rows of the join, none of which is the disenrolled course (404 when
    there is none left). *)
Theorem disenroll_not_found_or_deleted (req : Request) (w : World)
    (c u : string) :
  prepareValue (field "courseId" (body req)) = Some c ->
  prepareValue (field "userId" (body req)) = Some u ->
  truthy (field "courseId" (body req)) = true ->
  truthy (field "userId" (body req)) = true ->
  (~ In (Some c, Some u) (List.map enrollment_key (Enrollments (db w))) ->
   quiet 1 w = true ->
   disenroll req w
   = (Ok (respond 404 (error "Enrollment not found")),
      after_query (db w) w))
  /\ (In (Some c, Some u) (List.map enrollment_key (Enrollments (db w))) ->
      quiet 2 w = true ->
      let w' := snd (disenroll req w) in
      let listed := SQL.enrolled (Some u) (db w') in
      fst (disenroll req w)
      = Ok (respond 200 (message "Disenrollment successful"))
      /\ db w'
         = set_Enrollments
             (List.filter
                (fun e => negb (SQL.enrollment_matches (Some c) (Some u) e)))
             (db w)
      /\ ~ In (Some c, Some u)
             (List.map enrollment_key (Enrollments (db w')))
      /\ Forall (fun c' => c_id c' <> Some c) listed
      /\ forall (req2 : Request) (w2 : World),
           db w2 = db w' -> quiet 1 w2 = true ->
           fst (get_enrollments u req2 w2)
           = Ok (match listed with
                 | [] => respond 404 (message "No enrolled courses found")
                 | _ :: _ =>
                     respond 200
                       (JsObj [("enrolledCourses",
                                JsArr (List.map
                                         (fun c' => json_of_row (course_row c'))
                                         listed))])
                 end)).
Proof.
  intros Hpc Hpu Hc Hu.
  assert (Hrun2 :
    In (Some c, Some u) (List.map enrollment_key (Enrollments (db w))) ->
    quiet 2 w = true ->
    disenroll req w
    = (Ok (respond 200 (message "Disenrollment successful")),
       after_query (snd (SQL.delete_enrollment (Some c) (Some u) (db w)))
         (after_query (db w) w))).
  { intros Hin Hq. apply quiet_S in Hq as [Hq1 Hq2].
    unfold disenroll. rewrite Hc, Hu, Hpc, Hpu. simpl.
    unfold try_catch, bind. rewrite (query_quiet _ _ Hq1). simpl.
    destruct (List.filter _ (Enrollments (db w))) as [|e0 rest] eqn:Hf.
    { by apply enrollment_filter_nil in Hf. }
    simpl. by rewrite query_quiet by apply (Hq2 (db w)). }
  split.
  - intros Hnotin Hq. unfold disenroll. rewrite Hc, Hu, Hpc, Hpu. simpl.
    unfold try_catch, bind. rewrite (query_quiet _ _ Hq). simpl.
    apply enrollment_filter_nil in Hnotin. by rewrite Hnotin.
  - intros Hin Hq w' listed. subst listed w'.
    rewrite (Hrun2 Hin Hq). simpl. split; [done|]. split; [done|].
    split; [|split].
    + intros Hstill. apply in_map_iff in Hstill as (e & Hk & He).
      apply List.filter_In in He as [_ Hkept].
      apply enrollment_matches_iff in Hk. by rewrite Hk in Hkept.
    + apply (enrolled_after_delete c u (db w)).
    + intros req2 w2 Hdb Hq2. unfold get_enrollments, try_catch, bind.
      rewrite (query_quiet _ _ Hq2). simpl. rewrite Hdb. simpl.
      destruct (SQL.enrolled _ _) as [|c1 rest]; simpl; [done|].
      unfold ret. simpl. by rewrite List.map_map.
Qed.

Lemma disenroll_not_found_or_deleted_witness :
  disenroll (request DELETE_enrollments None
               {[ "courseId" := JNum 1; "userId" := JStr "2" ]}) Sample.world
  = (Ok (respond 404 (error "Enrollment not found")), Sample.world)
  /\ fst (disenroll (request DELETE_enrollments None
                       {[ "courseId" := JNum 1; "userId" := JStr "1" ]})
            Sample.world)
     = Ok (respond 200 (message "Disenrollment successful")).
Proof.
  split.
  - pose proof (disenroll_not_found_or_deleted
                  (request DELETE_enrollments None
                     {[ "courseId" := JNum 1; "userId" := JStr "2" ]})
                  Sample.world "1" "2") as H.
    do 4 (lapply H; [clear H; intros H | reflexivity]).
    apply (proj1 H); [|reflexivity]. intros [[=] | []].
  - pose proof (disenroll_not_found_or_deleted
                  (request DELETE_enrollments None
                     {[ "courseId" := JNum 1; "userId" := JStr "1" ]})
                  Sample.world "1" "1") as H.
    do 4 (lapply H; [clear H; intros H | reflexivity]).
    destruct (proj2 H) as [Hresp _]; [left; reflexivity|reflexivity|].
    exact Hresp.
Defined.

(** *** Reviews *)

(** C7. Whatever the state, two review submissions for the same course by
    the same user that pass the presence check (rating and userId truthy)
    and whose queries meet no fault are both answered 201 with the created
    row, and Reviews gains two rows, both with that (course_id, user_id)
    pair: a lookup of the pair finds two rows more than before. *)
Theorem submit_review_twice_inserts_twice (courseId : string)
    (req1 req2 : Request) (w : World) (u : string) :
  let w1 := snd (submit_review courseId req1 w) in
  let w2 := snd (submit_review courseId req2 w1) in
  let review i := {| r_course_id := Some courseId;
                     r_user_id := Some u;
                     r_rating := prepareValue (field "rating" (body i));
                     r_comment := prepareValue (field "comment" (body i)) |} in
  courseId <> "" ->
  truthy (field "rating" (body req1)) = true ->
  truthy (field "rating" (body req2)) = true ->
  truthy (field "userId" (body req1)) = true ->
  truthy (field "userId" (body req2)) = true ->
  prepareValue (field "userId" (body req1)) = Some u ->
  prepareValue (field "userId" (body req2)) = Some u ->
  quiet 2 w = true ->
  fst (submit_review courseId req1 w)
  = Ok (respond 201
          (JsObj [("message", JsStr "Feedback submitted successfully");
                  ("review", json_of_row (review_row (review req1)))]))
  /\ fst (submit_review courseId req2 w1)
     = Ok (respond 201
             (JsObj [("message", JsStr "Feedback submitted successfully");
                     ("review", json_of_row (review_row (review req2)))]))
  /\ Reviews (db w2) = Reviews (db w) ++ [review req1; review req2]
  /\ length (fst (SQL.review_by_pair (Some courseId) (Some u) (db w2)))
     = S (S (length (fst (SQL.review_by_pair (Some courseId) (Some u)
                            (db w))))).
Proof.
  intros w1 w2 review Hcourse Hr1 Hr2 Hu1 Hu2 Hpu1 Hpu2 Hq.
  apply quiet_S in Hq as [Hq1 Hq2].
  assert (Hne : negb (courseId =? "") = true).
  { apply negb_true_iff. by apply String.eqb_neq. }
  assert (Hrun1 :
    submit_review courseId req1 w
    = (Ok (respond 201
             (JsObj [("message", JsStr "Feedback submitted successfully");
                     ("review", json_of_row (review_row (review req1)))])),
       after_query (set_Reviews (fun rs => rs ++ [review req1]) (db w)) w)).
  { unfold submit_review. simpl. rewrite Hne, Hr1, Hu1, Hpu1. simpl.
    unfold try_catch, bind. by rewrite (query_quiet _ _ Hq1). }
  assert (Hrun2 :
    submit_review courseId req2 w1
    = (Ok (respond 201
             (JsObj [("message", JsStr "Feedback submitted successfully");
                     ("review", json_of_row (review_row (review req2)))])),
       after_query (set_Reviews (fun rs => rs ++ [review req2]) (db w1)) w1)).
  { unfold submit_review. simpl. rewrite Hne, Hr2, Hu2, Hpu2. simpl.
    unfold try_catch, bind. rewrite query_quiet; [done|].
    subst w1. rewrite Hrun1. apply Hq2. }
  assert (Hdb : Reviews (db w2)
                = Reviews (db w) ++ [review req1; review req2]).
  { subst w2. rewrite Hrun2. simpl. subst w1. rewrite Hrun1. simpl.
    by rewrite <- List.app_assoc. }
  repeat split; [by rewrite Hrun1 | by rewrite Hrun2 | exact Hdb |].
  simpl. rewrite Hdb, !List.length_map, List.filter_app, List.length_app.
  simpl. unfold SQL.review_matches at 2 3. simpl.
  rewrite !String.eqb_refl. simpl. lia.
Qed.

Lemma submit_review_twice_inserts_twice_witness :
  Reviews
    (db (snd (submit_review "1"
                (request (POST_reviews "1") None
                   {[ "rating" := JNum 2; "userId" := JNum 1 ]})
                (snd (submit_review "1"
                        (request (POST_reviews "1") None
                           {[ "rating" := JNum 4; "userId" := JNum 1;
                              "comment" := JStr "Good" ]})
                        Sample.world)))))
  = Reviews Sample.store
    ++ [{| r_course_id := Some "1"; r_user_id := Some "1";
           r_rating := Some "4"; r_comment := Some "Good" |};
        {| r_course_id := Some "1"; r_user_id := Some "1";
           r_rating := Some "2"; r_comment := None |}].
Proof.
  pose proof (submit_review_twice_inserts_twice "1"
                (request (POST_reviews "1") None
                   {[ "rating" := JNum 4; "userId" := JNum 1;
                      "comment" := JStr "Good" ]})
                (request (POST_reviews "1") None
                   {[ "rating" := JNum 2; "userId" := JNum 1 ]})
                Sample.world "1") as H.
  simpl in H.
  lapply H; [clear H; intros H | discriminate].
  do 7 (lapply H; [clear H; intros H | reflexivity]).
  destruct H as (_ & _ & Hdb & _). rewrite Hdb. reflexivity.
Defined.

(** *** Listings *)

(** C8. When the query meets no fault: the listing of an instructor's
    courses with no matching course answers 200 with an empty array,
    whereas the listing of a user's enrolled courses with no row in the
    join answers 404, and so does the listing of a course's reviews with no
    row in its join. *)
Theorem empty_listing_policies (env : Env) (a : option string)
    (b : gmap string jsval) (w : World) :
  quiet 1 w = true ->
  (forall instructorId,
     fst (SQL.courses_by_instructor (Some instructorId) (db w)) = [] ->
     app env (request (GET_courses instructorId) a b) w
     = (Ok (respond 200 (JsObj [("courses", JsArr [])])),
        after_query (db w) w))
  /\ (forall userId,
        fst (SQL.enrolled_courses (Some userId) (db w)) = [] ->
        app env (request (GET_enrollments userId) a b) w
        = (Ok (respond 404 (message "No enrolled courses found")),
           after_query (db w) w))
  /\ (forall courseId,
        fst (SQL.course_reviews (Some courseId) (db w)) = [] ->
        app env (request (GET_reviews courseId) a b) w
        = (Ok (respond 404 (message "No reviews found for this course")),
           after_query (db w) w)).
Proof.
  intros Hq. unfold app, request; simpl. repeat split.
  - intros instructorId Hrows. unfold get_courses, try_catch, bind.
    rewrite (query_quiet _ _ Hq). simpl in Hrows |- *. by rewrite Hrows.
  - intros userId Hrows. unfold get_enrollments, try_catch, bind.
    rewrite (query_quiet _ _ Hq). simpl in Hrows |- *. by rewrite Hrows.
  - intros courseId Hrows. unfold get_reviews, try_catch, bind.
    rewrite (query_quiet _ _ Hq). simpl in Hrows |- *. by rewrite Hrows.
Qed.

Lemma empty_listing_policies_witness :
  app Sample.env (request (GET_courses "8") None ∅) Sample.world
  = (Ok (respond 200 (JsObj [("courses", JsArr [])])), Sample.world)
  /\ app Sample.env (request (GET_enrollments "2") None ∅) Sample.world
     = (Ok (respond 404 (message "No enrolled courses found")), Sample.world)
  /\ app Sample.env (request (GET_reviews "3") None ∅) Sample.world
     = (Ok (respond 404 (message "No reviews found for this course")),
        Sample.world).
Proof.
  pose proof (empty_listing_policies Sample.env None ∅ Sample.world eq_refl)
    as (Hcourses & Henrolled & Hreviews).
  split; [|split].
  - apply (Hcourses "8"). reflexivity.
  - apply (Henrolled "2"). reflexivity.
  - apply (Hreviews "3"). reflexivity.
Defined.

(** C10. The presence checks are falsiness tests. A review submission
    whose rating is the number 0 gets the 400 of a submission without
    rating, and a review update whose body holds rating 0 and no comment
    gets the 400 of an update with neither field; no query is issued. *)
Theorem zero_rating_is_rejected_as_missing (env : Env) (a : option string)
    (b : gmap string jsval) (courseId userId : string) (w : World) :
  app env (request (POST_reviews courseId) a (<["rating" := JNum 0]> b)) w
  = (Ok (respond 400
           (error "Course ID, Rating, and User ID are required")), w)
  /\ app env (request (POST_reviews courseId) a (<["rating" := JNum 0]> b)) w
     = app env (request (POST_reviews courseId) a (delete "rating" b)) w
  /\ app env (request (PUT_reviews courseId userId) a
                (<["rating" := JNum 0]> (delete "comment" b))) w
     = (Ok (respond 400
              (error "At least one field (rating or comment) must be provided")),
        w)
  /\ app env (request (PUT_reviews courseId userId) a
                (<["rating" := JNum 0]> (delete "comment" b))) w
     = app env (request (PUT_reviews courseId userId) a
                  (delete "rating" (delete "comment" b))) w.
Proof.
  unfold app, request; simpl. unfold submit_review, update_review; simpl.
  repeat progress
    (rewrite ?field_insert_eq, ?field_delete_eq;
     rewrite ?(field_insert_ne "rating" "comment"),
       ?(field_delete_ne "rating" "comment") by done).
  simpl. rewrite !orb_true_r. simpl. done.
Qed.

(** *** Failed requests write nothing *)

(** One step of the case analysis of a handler run: the presence check,
    the fault met by a query, the emptiness of its rows, the result of a
    package call. The innermost scrutinee is taken first. *)
Ltac handler_step :=
  match goal with
  | |- context [match faults ?w with _ => _ end] =>
      destruct (faults w) as [|[] ?]; simpl
  | |- context [match ?x with _ => _ end] =>
      lazymatch x with
      | context [match _ with _ => _ end] => fail
      | _ => destruct x eqn:?; simpl
      end
  end.

Ltac handler_cases :=
  unfold writes_only_on_success; intros;
  unfold generateToken, genSalt;
  unfold try_catch, bind, query, lift, server_error, throw, ret, empty,
    nonempty; simpl;
  repeat handler_step; auto.

Lemma register_writes_only_on_success env req :
  writes_only_on_success (register env req).
Proof. unfold register. handler_cases. Qed.

Lemma login_writes_only_on_success env req :
  writes_only_on_success (login env req).
Proof. unfold login. handler_cases. Qed.

Lemma add_course_writes_only_on_success req :
  writes_only_on_success (add_course req).
Proof. unfold add_course. handler_cases. Qed.

Lemma edit_course_writes_only_on_success id req :
  writes_only_on_success (edit_course id req).
Proof. unfold edit_course. handler_cases. Qed.

Lemma delete_course_writes_only_on_success id req :
  writes_only_on_success (delete_course id req).
Proof. unfold delete_course. handler_cases. Qed.

Lemma get_courses_writes_only_on_success instructorId req :
  writes_only_on_success (get_courses instructorId req).
Proof. unfold get_courses. handler_cases. Qed.

Lemma enroll_writes_only_on_success req :
  writes_only_on_success (enroll req).
Proof. unfold enroll. handler_cases. Qed.

Lemma disenroll_writes_only_on_success req :
  writes_only_on_success (disenroll req).
Proof. unfold disenroll. handler_cases. Qed.

Lemma get_enrollments_writes_only_on_success userId req :
  writes_only_on_success (get_enrollments userId req).
Proof. unfold get_enrollments. handler_cases. Qed.

Lemma submit_review_writes_only_on_success courseId req :
  writes_only_on_success (submit_review courseId req).
Proof. unfold submit_review. handler_cases. Qed.

Lemma update_review_writes_only_on_success courseId userId req :
  writes_only_on_success (update_review courseId userId req).
Proof. unfold update_review. handler_cases. Qed.

Lemma get_reviews_writes_only_on_success courseId req :
  writes_only_on_success (get_reviews courseId req).
Proof. unfold get_reviews. handler_cases. Qed.

Lemma verifyToken_writes_only_on_success env req next :
  (forall req', writes_only_on_success (next req')) ->
  writes_only_on_success (verifyToken env req next).
Proof.
  intros Hnext w. unfold verifyToken.
  destruct (bearer req) as [[|ch token]|]; simpl; auto.
  destruct (jwt_verify env _ _); simpl; auto. apply Hnext.
Qed.

Lemma app_writes_only_on_success env req :
  writes_only_on_success (app env req).
Proof.
  unfold app. destruct (route req); simpl;
    try apply verifyToken_writes_only_on_success; intros;
    auto using register_writes_only_on_success,
      login_writes_only_on_success, add_course_writes_only_on_success,
      edit_course_writes_only_on_success,
      delete_course_writes_only_on_success,
      get_courses_writes_only_on_success, enroll_writes_only_on_success,
      disenroll_writes_only_on_success,
      get_enrollments_writes_only_on_success,
      submit_review_writes_only_on_success,
      update_review_writes_only_on_success,
      get_reviews_writes_only_on_success.
Qed.

(** Every request is answered: no handler lets a throw escape its
    [try]/[catch]. *)
Lemma app_always_responds env req w :
  exists r, fst (app env req w) = Ok r.
Proof.
  unfold app. destruct (route req); simpl; unfold verifyToken;
    try (destruct (bearer req) as [[|ch token]|]; simpl; eauto;
         destruct (jwt_verify env _ _); simpl; eauto).
  all: unfold register, login, add_course, edit_course, delete_course,
         get_courses, enroll, disenroll, get_enrollments, submit_review,
         update_review, get_reviews.
  all: unfold generateToken, genSalt;
       unfold try_catch, bind, query, lift, server_error, throw, ret, empty,
         nonempty; simpl.
  all: repeat handler_step; eauto.
Qed.

(** C9. Whatever the route, the token, the body and the faults, a request
    answered 400 or 404 leaves the store exactly as it found it: every
    check of a handler comes before its insert, update or delete. *)
Theorem failed_requests_write_nothing (env : Env) (req : Request)
    (w w' : World) (r : Response) :
  app env req w = (Ok r, w') ->
  status r = 400%Z \/ status r = 404%Z ->
  db w' = db w.
Proof.
  intros Hrun Hstatus.
  pose proof (app_writes_only_on_success env req w) as Hpost.
  rewrite Hrun in Hpost.
  destruct Hpost as [H200 | [H201 | Hsame]]; [| |exact Hsame];
    destruct Hstatus as [H | H]; rewrite H in *; discriminate.
Qed.

Lemma failed_requests_write_nothing_witness :
  db (snd (app Sample.env
             (request (PUT_reviews "1" "2") None {[ "rating" := JNum 3 ]})
             Sample.world))
  = Sample.store.
Proof.
  apply (failed_requests_write_nothing Sample.env
           (request (PUT_reviews "1" "2") None {[ "rating" := JNum 3 ]})
           Sample.world _ (respond 404 (error "Review not found"))).
  - reflexivity.
  - right. reflexivity.
Defined.

(** ** Further properties of the handlers *)

Lemma quiet_after n w s g :
  quiet (S n) w = true -> quiet n (after s g w) = true.
Proof.
  unfold quiet, after. destruct (faults w) as [|f fs]; simpl.
  - intros _. by destruct n.
  - by intros [_ Hfs]%andb_true_iff.
Qed.

Lemma quiet_1 n w : quiet (S n) w = true -> quiet 1 w = true.
Proof. intros Hq. by apply quiet_S in Hq as [Hq _]. Qed.

Lemma after_query_after s w : after_query s w = after s (rng w) w.
Proof. reflexivity. Qed.

Lemma users_by_email_fresh (email : string) (us : list UserRow) :
  (forall u, In u us -> u_email u <> Some email) ->
  List.filter (fun u => sql_eq (u_email u) (Some email)) us = [].
Proof.
  intros Hnone. apply filter_nil_iff. intros x Hx.
  destruct (sql_eq (u_email x) _) eqn:Heq; [|done].
  apply sql_eq_true in Heq as (y & Hy & [= ->]). by destruct (Hnone x Hx).
Qed.

(** *** Login and token issuance *)

(** X1. A login that passes the presence check, whose lookup meets no
    fault and finds users with the email: the hash of the first row alone
    is compared; when [bcrypt.compare] accepts and [jwt.sign] returns, the
    answer is 200 with the token signed for that row's id; when
    [jwt.sign] throws, it is 500. The store is as before. *)
Theorem login_issues_token_for_first_match (env : Env) (w : World)
    (a : option string) (b : gmap string jsval) (u : UserRow)
    (rest : list UserRow) :
  truthy (field "email" b) = true ->
  truthy (field "password" b) = true ->
  List.filter
    (fun x => sql_eq (u_email x) (prepareValue (field "email" b)))
    (Users (db w)) = u :: rest ->
  bcrypt_compare env (field "password" b) (u_password u) = Some true ->
  quiet 1 w = true ->
  (forall token,
     jwt_sign env (u_id u) (JWT_SECRET_KEY env) "7d" = Some token ->
     app env (request POST_users_login a b) w
     = (Ok (respond 200
              (JsObj [("message", JsStr "Login successful");
                      ("token", JsStr token)])),
        after_query (db w) w))
  /\ (jwt_sign env (u_id u) (JWT_SECRET_KEY env) "7d" = None ->
      app env (request POST_users_login a b) w
      = (Ok (respond 500 (error "Server error")), after_query (db w) w)).
Proof.
  intros He Hp Hrows Hcmp Hq.
  assert (Hrun : forall o,
    jwt_sign env (u_id u) (JWT_SECRET_KEY env) "7d" = o ->
    app env (request POST_users_login a b) w
    = (Ok (match o with
           | Some token =>
               respond 200
                 (JsObj [("message", JsStr "Login successful");
                         ("token", JsStr token)])
           | None => respond 500 (error "Server error")
           end), after_query (db w) w)).
  { intros o Ho. unfold app, request; simpl. unfold login; simpl.
    rewrite He, Hp. simpl. unfold try_catch, bind.
    rewrite (query_quiet _ _ Hq). simpl. rewrite Hrows. simpl.
    change (col "password" (user_row u)) with (u_password u).
    change (col "id" (user_row u)) with (u_id u).
    rewrite Hcmp. simpl. unfold generateToken. rewrite Ho.
    by destruct o. }
  split.
  - intros token Hsign. apply (Hrun _ Hsign).
  - intros Hsign. apply (Hrun _ Hsign).
Qed.

Lemma login_issues_token_for_first_match_witness :
  app Sample.env
    (request POST_users_login None
       {[ "email" := JStr "alice@example.org";
          "password" := JStr "wonderland" ]})
    Sample.world
  = (Ok (respond 200
           (JsObj [("message", JsStr "Login successful");
                   ("token", JsStr "tok:1")])), Sample.world).
Proof.
  pose proof (login_issues_token_for_first_match Sample.env Sample.world
                None
                {[ "email" := JStr "alice@example.org";
                   "password" := JStr "wonderland" ]}
                Sample.alice []) as H.
  do 5 (lapply H; [clear H; intros H | reflexivity]).
  apply (proj1 H). reflexivity.
Defined.

(** *** Registration composed with itself and with login *)

Lemma register_created (env : Env) (req : Request) (w : World)
    (email hashed : string) :
  truthy (field "name" (body req)) = true ->
  truthy (field "email" (body req)) = true ->
  truthy (field "password" (body req)) = true ->
  truthy (field "role" (body req)) = true ->
  prepareValue (field "email" (body req)) = Some email ->
  (forall u, In u (Users (db w)) -> u_email u <> Some email) ->
  bcrypt_hash env (field "password" (body req))
    (fst (bcrypt_genSalt env 10 (rng w))) = Some hashed ->
  quiet 2 w = true ->
  snd (register env req w)
  = after
      (snd (SQL.insert_user (prepareValue (field "name" (body req)))
              (Some email) (Some hashed)
              (prepareValue (field "role" (body req))) (db w)))
      (snd (bcrypt_genSalt env 10 (rng w)))
      (after_query (db w) w)
  /\ exists r, fst (register env req w) = Ok r /\ status r = 201%Z.
Proof.
  intros Hn He Hp Hr Hpe Hnone Hh Hq.
  pose proof (quiet_1 _ _ Hq) as Hq1.
  pose proof (quiet_after _ _ (db w) (snd (bcrypt_genSalt env 10 (rng w))) Hq)
    as Hq2.
  unfold register. rewrite Hn, He, Hp, Hr, Hpe. simpl.
  unfold try_catch, bind. rewrite (query_quiet _ _ Hq1). simpl.
  rewrite (users_by_email_fresh _ _ Hnone). simpl.
  unfold genSalt. simpl. rewrite Hh. simpl.
  rewrite query_quiet by exact Hq2. simpl. split; [done|]. eauto.
Qed.

Lemma login_accepts (env : Env) (req : Request) (w : World) (u : UserRow)
    (rest : list UserRow) (token : string) :
  truthy (field "email" (body req)) = true ->
  truthy (field "password" (body req)) = true ->
  List.filter
    (fun x => sql_eq (u_email x) (prepareValue (field "email" (body req))))
    (Users (db w)) = u :: rest ->
  bcrypt_compare env (field "password" (body req)) (u_password u)
  = Some true ->
  jwt_sign env (u_id u) (JWT_SECRET_KEY env) "7d" = Some token ->
  quiet 1 w = true ->
  login env req w
  = (Ok (respond 200
           (JsObj [("message", JsStr "Login successful");
                   ("token", JsStr token)])),
     after_query (db w) w).
Proof.
  intros He Hp Hrows Hcmp Hsign Hq. unfold login.
  rewrite He, Hp. simpl. unfold try_catch, bind.
  rewrite (query_quiet _ _ Hq). simpl. rewrite Hrows. simpl.
  change (col "password" (user_row u)) with (u_password u).
  change (col "id" (user_row u)) with (u_id u).
  rewrite Hcmp. simpl. unfold generateToken. by rewrite Hsign.
Qed.

Lemma quiet_weaken n w : quiet (S n) w = true -> quiet n w = true.
Proof.
  unfold quiet. generalize (faults w). induction n as [|n IH]; [done|].
  intros [|f fs]; [done|]. simpl.
  intros [Hf Hfs]%andb_true_iff. rewrite Hf. simpl. by apply IH.
Qed.

(** X2. Registration then login. After a registration that creates the
    user (presence check passed, email not taken, [bcrypt.hash] returned,
    no fault), a login with the same email and password, for which
    [bcrypt.compare] accepts the stored hash and [jwt.sign] returns, is
    answered 200 with the token signed for the id the registration
    generated. *)
Theorem register_then_login (env : Env) (w : World) (a1 a2 : option string)
    (b1 b2 : gmap string jsval) (email hashed token : string) :
  let w1 := snd (app env (request POST_users_register a1 b1) w) in
  truthy (field "name" b1) = true ->
  truthy (field "email" b1) = true ->
  truthy (field "password" b1) = true ->
  truthy (field "role" b1) = true ->
  prepareValue (field "email" b1) = Some email ->
  (forall u, In u (Users (db w)) -> u_email u <> Some email) ->
  bcrypt_hash env (field "password" b1)
    (fst (bcrypt_genSalt env 10 (rng w))) = Some hashed ->
  field "email" b2 = field "email" b1 ->
  field "password" b2 = field "password" b1 ->
  bcrypt_compare env (field "password" b1) (Some hashed) = Some true ->
  jwt_sign env (Some (pretty (users_id_seq (db w)))) (JWT_SECRET_KEY env)
    "7d" = Some token ->
  quiet 3 w = true ->
  app env (request POST_users_login a2 b2) w1
  = (Ok (respond 200
           (JsObj [("message", JsStr "Login successful");
                   ("token", JsStr token)])),
     after_query (db w1) w1).
Proof.
  intros w1 Hn He Hp Hr Hpe Hnone Hh He2 Hp2 Hcmp Hsign Hq.
  destruct (register_created env (request POST_users_register a1 b1) w
              email hashed Hn He Hp Hr Hpe Hnone Hh (quiet_weaken _ _ Hq))
    as [Hw1 _].
  change (snd (register env (request POST_users_register a1 b1) w))
    with w1 in Hw1.
  unfold app, request; simpl.
  apply (login_accepts env _ w1
           {| u_id := Some (pretty (users_id_seq (db w)));
              u_name := prepareValue (field "name" b1);
              u_email := Some email; u_password := Some hashed;
              u_role := prepareValue (field "role" b1) |} []); simpl.
  - by rewrite He2.
  - by rewrite Hp2.
  - rewrite He2, Hpe, Hw1. simpl. rewrite List.filter_app.
    rewrite (users_by_email_fresh _ _ Hnone). simpl.
    by rewrite String.eqb_refl.
  - by rewrite Hp2.
  - exact Hsign.
  - rewrite Hw1. apply quiet_after.
    apply (quiet_after 2 w (db w) (rng w) Hq).
Qed.

Lemma register_then_login_witness :
  fst (app Sample.env
         (request POST_users_login None
            {[ "email" := JStr "bob@example.org";
               "password" := JStr "builder" ]})
         (snd (app Sample.env
                 (request POST_users_register None
                    {[ "name" := JStr "Bob";
                       "email" := JStr "bob@example.org";
                       "password" := JStr "builder";
                       "role" := JStr "instructor" ]})
                 Sample.world)))
  = Ok (respond 200
          (JsObj [("message", JsStr "Login successful");
                  ("token", JsStr "tok:2")])).
Proof.
  pose proof (register_then_login Sample.env Sample.world None None
                {[ "name" := JStr "Bob"; "email" := JStr "bob@example.org";
                   "password" := JStr "builder";
                   "role" := JStr "instructor" ]}
                {[ "email" := JStr "bob@example.org";
                   "password" := JStr "builder" ]}
                "bob@example.org" "h$builder" "tok:2") as H.
  simpl in H.
  do 5 (lapply H; [clear H; intros H | reflexivity]).
  lapply H; [clear H; intros H | intros u [<- | []]; discriminate].
  do 6 (lapply H; [clear H; intros H | reflexivity]).
  rewrite H. reflexivity.
Defined.

(** X3. Registering the same email twice. After a registration that
    creates the user, a second registration with the same email that passes
    the presence check and whose lookup meets no fault is answered 400
    "User already exists" and adds no row, whatever its name, password and
    role. *)
Theorem register_twice_conflicts (env : Env) (w : World)
    (a1 a2 : option string) (b1 b2 : gmap string jsval)
    (email hashed : string) :
  let w1 := snd (app env (request POST_users_register a1 b1) w) in
  truthy (field "name" b1) = true ->
  truthy (field "email" b1) = true ->
  truthy (field "password" b1) = true ->
  truthy (field "role" b1) = true ->
  prepareValue (field "email" b1) = Some email ->
  (forall u, In u (Users (db w)) -> u_email u <> Some email) ->
  bcrypt_hash env (field "password" b1)
    (fst (bcrypt_genSalt env 10 (rng w))) = Some hashed ->
  truthy (field "name" b2) = true ->
  truthy (field "email" b2) = true ->
  truthy (field "password" b2) = true ->
  truthy (field "role" b2) = true ->
  prepareValue (field "email" b2) = Some email ->
  quiet 3 w = true ->
  (exists r, fst (app env (request POST_users_register a1 b1) w) = Ok r
             /\ status r = 201%Z)
  /\ app env (request POST_users_register a2 b2) w1
     = (Ok (respond 400 (error "User already exists")),
        after_query (db w1) w1).
Proof.
  intros w1 Hn He Hp Hr Hpe Hnone Hh Hn2 He2 Hp2 Hr2 Hpe2 Hq.
  destruct (register_created env (request POST_users_register a1 b1) w
              email hashed Hn He Hp Hr Hpe Hnone Hh (quiet_weaken _ _ Hq))
    as [Hw1 Hfirst].
  change (snd (register env (request POST_users_register a1 b1) w))
    with w1 in Hw1.
  split; [exact Hfirst|].
  assert (Hq1 : quiet 1 w1 = true).
  { rewrite Hw1. apply quiet_after.
    apply (quiet_after 2 w (db w) (rng w) Hq). }
  assert (Hfound :
    nonempty (fst (SQL.users_by_email (Some email) (db w1))) = true).
  { rewrite Hw1. simpl. rewrite List.filter_app. simpl.
    rewrite String.eqb_refl. by destruct (List.filter _ (Users (db w))). }
  unfold app, request; simpl. unfold register; simpl.
  rewrite Hn2, He2, Hp2, Hr2, Hpe2. simpl. unfold try_catch, bind.
  rewrite (query_quiet _ _ Hq1). cbv beta iota. by rewrite Hfound.
Qed.

Lemma register_twice_conflicts_witness :
  app Sample.env
    (request POST_users_register None
       {[ "name" := JStr "Robert"; "email" := JStr "bob@example.org";
          "password" := JStr "other"; "role" := JStr "student" ]})
    (snd (app Sample.env
            (request POST_users_register None
               {[ "name" := JStr "Bob"; "email" := JStr "bob@example.org";
                  "password" := JStr "builder";
                  "role" := JStr "instructor" ]})
            Sample.world))
  = (Ok (respond 400 (error "User already exists")),
     {| db := snd (SQL.insert_user (Some "Bob") (Some "bob@example.org")
                     (Some "h$builder") (Some "instructor") Sample.store);
        faults := []; rng := 1 |}).
Proof.
  pose proof (register_twice_conflicts Sample.env Sample.world None None
                {[ "name" := JStr "Bob"; "email" := JStr "bob@example.org";
                   "password" := JStr "builder";
                   "role" := JStr "instructor" ]}
                {[ "name" := JStr "Robert";
                   "email" := JStr "bob@example.org";
                   "password" := JStr "other"; "role" := JStr "student" ]}
                "bob@example.org" "h$builder") as H.
  simpl in H.
  do 5 (lapply H; [clear H; intros H | reflexivity]).
  lapply H; [clear H; intros H | intros u [<- | []]; discriminate].
  do 7 (lapply H; [clear H; intros H | reflexivity]).
  destruct H as [_ H]. rewrite H. reflexivity.
Defined.

(** *** Courses: create, delete, list *)

Lemma sql_eq_Some (a : sqlval) (x : string) :
  sql_eq a (Some x) = true <-> a = Some x.
Proof.
  rewrite sql_eq_true. split.
  - by intros (y & -> & [= ->]).
  - intros ->. eauto.
Qed.

Lemma filter_by_column {A : Type} (column : A -> sqlval) (x : string)
    (l : list A) (a : A) :
  In a (List.filter (fun r => sql_eq (column r) (Some x)) l)
  <-> In a l /\ column a = Some x.
Proof. rewrite List.filter_In. simpl. by rewrite sql_eq_Some. Qed.

Lemma filter_out_column {A : Type} (column : A -> sqlval) (x : string)
    (l : list A) (a : A) :
  In a (List.filter (fun r => negb (sql_eq (column r) (Some x))) l)
  <-> In a l /\ column a <> Some x.
Proof.
  rewrite List.filter_In. simpl. rewrite negb_true_iff, <- sql_eq_Some.
  destruct (sql_eq (column a) (Some x)); intuition congruence.
Qed.

(** X4. Course creation. The handler answers 400 and touches nothing
    when title or instructor_id is falsy. Otherwise, when its query meets
    no fault, it answers 201 with the created row and appends exactly that
    row, with an id drawn from the sequence and a [NULL] description when
    none is given; a listing of that instructor's courses served from the
    resulting store shows the former listing followed by the new course. *)
Theorem add_course_validates_and_appends (req : Request) (w : World) :
  let title := field "title" (body req) in
  let description := field "description" (body req) in
  let instructor_id := field "instructor_id" (body req) in
  let c := {| c_id := Some (pretty (courses_id_seq (db w)));
              c_title := prepareValue title;
              c_description := prepareValue description;
              c_instructor_id := prepareValue instructor_id |} in
  let w' := snd (add_course req w) in
  (truthy title = false \/ truthy instructor_id = false ->
   add_course req w
   = (Ok (respond 400 (error "Title and Instructor ID are required")), w))
  /\ (truthy title = true -> truthy instructor_id = true ->
      quiet 1 w = true ->
      fst (add_course req w)
      = Ok (respond 201
              (JsObj [("message", JsStr "Course added successfully");
                      ("course", json_of_row (course_row c))]))
      /\ Courses (db w') = Courses (db w) ++ [c]
      /\ Users (db w') = Users (db w)
      /\ Enrollments (db w') = Enrollments (db w)
      /\ Reviews (db w') = Reviews (db w)
      /\ forall (i : string) (req2 : Request) (w2 : World),
           prepareValue instructor_id = Some i ->
           db w2 = db w' -> quiet 1 w2 = true ->
           fst (get_courses i req2 w2)
           = Ok (respond 200
                   (JsObj [("courses",
                            JsArr (List.map json_of_row
                                     (fst (SQL.courses_by_instructor
                                             (Some i) (db w))
                                      ++ [course_row c])))]))).
Proof.
  intros title description instructor_id c w'. split.
  - intros Hfalsy. unfold add_course. fold title instructor_id.
    by destruct Hfalsy as [-> | ->]; rewrite ?orb_true_r.
  - intros Ht Hi Hq.
    assert (Hrun :
      add_course req w
      = (Ok (respond 201
               (JsObj [("message", JsStr "Course added successfully");
                       ("course", json_of_row (course_row c))])),
         after_query
           (snd (SQL.insert_course (prepareValue title)
                   (prepareValue description) (prepareValue instructor_id)
                   (db w))) w)).
    { unfold add_course. fold title description instructor_id.
      rewrite Ht, Hi. simpl. unfold try_catch, bind.
      by rewrite (query_quiet _ _ Hq). }
    subst w'. rewrite Hrun. simpl. repeat split.
    intros i req2 w2 Hpi Hdb Hq2. unfold get_courses, try_catch, bind.
    rewrite (query_quiet _ _ Hq2). simpl. rewrite Hdb. simpl.
    rewrite List.filter_app, List.map_app. simpl.
    subst c. rewrite Hpi. simpl. by rewrite String.eqb_refl.
Qed.

Lemma add_course_validates_and_appends_witness :
  add_course (request POST_courses None {[ "title" := JStr "Topology" ]})
    Sample.world
  = (Ok (respond 400 (error "Title and Instructor ID are required")),
     Sample.world)
  /\ Courses
       (db (snd (add_course
                   (request POST_courses None
                      {[ "title" := JStr "Topology";
                         "instructor_id" := JNum 7 ]})
                   Sample.world)))
     = [Sample.algebra;
        {| c_id := Some "2"; c_title := Some "Topology";
           c_description := None; c_instructor_id := Some "7" |}].
Proof.
  split.
  - apply (proj1 (add_course_validates_and_appends
                    (request POST_courses None
                       {[ "title" := JStr "Topology" ]}) Sample.world)).
    right. reflexivity.
  - pose proof (proj2 (add_course_validates_and_appends
                         (request POST_courses None
                            {[ "title" := JStr "Topology";
                               "instructor_id" := JNum 7 ]})
                         Sample.world)) as H.
    simpl in H.
    do 3 (lapply H; [clear H; intros H | reflexivity]).
    destruct H as (_ & Hcourses & _). rewrite Hcourses. reflexivity.
Defined.

(** X5. Course deletion. When no course has the id and the lookup meets
    no fault, the answer is 404 and the store is as before. When one has
    and both queries meet no fault, the answer is 200, exactly the courses
    with that id are gone, and the handler deletes from Courses only: the
    users, and the enrollments and reviews that name the course, stay. A
    second deletion of the id served from the resulting store is answered
    404. *)
Theorem delete_course_not_found_or_deleted (id : string) (req : Request)
    (w : World) :
  let w' := snd (delete_course id req w) in
  ((forall c, In c (Courses (db w)) -> c_id c <> Some id) ->
   quiet 1 w = true ->
   delete_course id req w
   = (Ok (respond 404 (error "Course not found")), after_query (db w) w))
  /\ ((exists c, In c (Courses (db w)) /\ c_id c = Some id) ->
      quiet 2 w = true ->
      fst (delete_course id req w)
      = Ok (respond 200 (message "Course deleted successfully"))
      /\ (forall c, In c (Courses (db w'))
                    <-> In c (Courses (db w)) /\ c_id c <> Some id)
      /\ Users (db w') = Users (db w)
      /\ Enrollments (db w') = Enrollments (db w)
      /\ Reviews (db w') = Reviews (db w)
      /\ forall (req2 : Request) (w2 : World),
           db w2 = db w' -> quiet 1 w2 = true ->
           delete_course id req2 w2
           = (Ok (respond 404 (error "Course not found")),
              after_query (db w2) w2)).
Proof.
  intros w'.
  assert (Hnotfound : forall (r : Request) (v : World),
    (forall c, In c (Courses (db v)) -> c_id c <> Some id) ->
    quiet 1 v = true ->
    delete_course id r v
    = (Ok (respond 404 (error "Course not found")), after_query (db v) v)).
  { intros r v Hnone Hq. unfold delete_course, try_catch, bind.
    rewrite (query_quiet _ _ Hq). simpl.
    replace (List.filter _ (Courses (db v))) with (@nil CourseRow); [done|].
    symmetry. apply filter_nil_iff. intros c Hc.
    destruct (sql_eq (c_id c) (Some id)) eqn:Heq; [|done].
    apply sql_eq_Some in Heq. by destruct (Hnone c Hc). }
  split; [apply Hnotfound|].
  intros (c0 & Hc0 & Hid) Hq. apply quiet_S in Hq as [Hq1 Hq2].
  assert (Hrun :
    delete_course id req w
    = (Ok (respond 200 (message "Course deleted successfully")),
       after_query (snd (SQL.delete_course (Some id) (db w)))
         (after_query (db w) w))).
  { unfold delete_course, try_catch, bind.
    rewrite (query_quiet _ _ Hq1). simpl.
    destruct (List.filter _ (Courses (db w))) as [|c rest] eqn:Hf.
    { pose proof (proj1 (filter_nil_iff _ _) Hf c0 Hc0) as Hfalse.
      simpl in Hfalse. rewrite Hid in Hfalse. simpl in Hfalse.
      by rewrite String.eqb_refl in Hfalse. }
    simpl. by rewrite query_quiet by apply (Hq2 (db w)). }
  assert (Hgone : forall c, In c (Courses (db w'))
                            <-> In c (Courses (db w)) /\ c_id c <> Some id).
  { intros c. subst w'. rewrite Hrun. simpl. apply filter_out_column. }
  assert (Hw' : db w' = snd (SQL.delete_course (Some id) (db w))).
  { subst w'. by rewrite Hrun. }
  split; [by rewrite Hrun|]. split; [exact Hgone|].
  rewrite Hw'. simpl. do 3 (split; [done|]).
  intros req2 w2 Hdb Hq2'. apply Hnotfound; [|done].
  intros c Hc. rewrite Hdb in Hc. simpl in Hc.
  by apply filter_out_column in Hc as [_ Hne].
Qed.

Lemma delete_course_not_found_or_deleted_witness :
  delete_course "9" (request (DELETE_courses "9") None ∅) Sample.world
  = (Ok (respond 404 (error "Course not found")), Sample.world)
  /\ fst (delete_course "1" (request (DELETE_courses "1") None ∅)
            Sample.world)
     = Ok (respond 200 (message "Course deleted successfully"))
  /\ Enrollments
       (db (snd (delete_course "1" (request (DELETE_courses "1") None ∅)
                   Sample.world)))
     = Enrollments Sample.store.
Proof.
  split.
  - apply (proj1 (delete_course_not_found_or_deleted "9"
                    (request (DELETE_courses "9") None ∅) Sample.world));
      [|reflexivity].
    intros c [<- | []]. discriminate.
  - pose proof (proj2 (delete_course_not_found_or_deleted "1"
                         (request (DELETE_courses "1") None ∅)
                         Sample.world)) as H.
    lapply H; [clear H; intros H |].
    2:{ exists Sample.algebra. split; [left|]; reflexivity. }
    specialize (H eq_refl). destruct H as (Hresp & _ & _ & Henr & _).
    split; [exact Hresp | exact Henr].
Defined.

(** X6. The listing of an instructor's courses answers 200 whenever its
    query meets no fault, leaves the store as it is, and lists exactly the
    stored courses whose instructor_id is the one asked for. *)
Theorem get_courses_lists_the_instructors_courses (instructorId : string)
    (req : Request) (w : World) :
  quiet 1 w = true ->
  exists cs,
    get_courses instructorId req w
    = (Ok (respond 200
             (JsObj [("courses",
                      JsArr (List.map (fun c => json_of_row (course_row c))
                               cs))])),
       after_query (db w) w)
    /\ forall c, In c cs
                 <-> In c (Courses (db w))
                     /\ c_instructor_id c = Some instructorId.
Proof.
  intros Hq.
  exists (List.filter
            (fun c => sql_eq (c_instructor_id c) (Some instructorId))
            (Courses (db w))).
  split.
  - unfold get_courses, try_catch, bind. rewrite (query_quiet _ _ Hq).
    simpl. by rewrite List.map_map.
  - intros c. apply filter_by_column.
Qed.

Lemma get_courses_lists_the_instructors_courses_witness :
  exists cs,
    get_courses "7" (request (GET_courses "7") None ∅) Sample.world
    = (Ok (respond 200
             (JsObj [("courses",
                      JsArr (List.map (fun c => json_of_row (course_row c))
                               cs))])),
       Sample.world)
    /\ forall c, In c cs
                 <-> In c [Sample.algebra] /\ c_instructor_id c = Some "7".
Proof.
  apply (get_courses_lists_the_instructors_courses "7"
           (request (GET_courses "7") None ∅) Sample.world).
  reflexivity.
Defined.

(** *** The identity in the token is not consulted *)

(** X7. On a route registered with [verifyToken], two requests with the
    same route and body that carry different tokens, both accepted by
    [jwt.verify], get the same answer and leave the same world: no handler
    reads [req.user], so any valid token may act on any course and on any
    user's enrollment. *)
Theorem protected_handlers_ignore_the_caller (env : Env)
    (req1 req2 : Request) (w : World) (t1 t2 : string) (d1 d2 : json) :
  fst (routes env (route req1)) = true ->
  route req2 = route req1 ->
  body req2 = body req1 ->
  bearer req1 = Some t1 -> t1 <> "" ->
  jwt_verify env t1 (JWT_SECRET_KEY env) = Some d1 ->
  bearer req2 = Some t2 -> t2 <> "" ->
  jwt_verify env t2 (JWT_SECRET_KEY env) = Some d2 ->
  app env req1 w = app env req2 w.
Proof.
  intros Hauth Hroute Hbody Hb1 Hne1 Hv1 Hb2 Hne2 Hv2.
  unfold app. rewrite Hroute.
  destruct (route req1); simpl in Hauth |- *; try discriminate;
    unfold verifyToken; rewrite Hb1, Hb2;
    destruct t1 as [|x1 t1]; [congruence| |congruence| |congruence|
                              |congruence| |congruence|];
    destruct t2 as [|x2 t2]; try congruence; rewrite Hv1, Hv2.
  - unfold add_course. simpl. by rewrite Hbody.
  - unfold edit_course. simpl. by rewrite Hbody.
  - reflexivity.
  - unfold enroll. simpl. by rewrite Hbody.
  - unfold disenroll. simpl. by rewrite Hbody.
Qed.

Lemma protected_handlers_ignore_the_caller_witness :
  app Sample.env
    (request DELETE_enrollments (Some "Bearer tok:1")
       {[ "courseId" := JNum 1; "userId" := JNum 1 ]}) Sample.world
  = app Sample.env
      (request DELETE_enrollments (Some "Bearer tok:666")
         {[ "courseId" := JNum 1; "userId" := JNum 1 ]}) Sample.world.
Proof.
  apply (protected_handlers_ignore_the_caller Sample.env _ _ Sample.world
           "tok:1" "tok:666" (JsObj [("id", JsStr "1")])
           (JsObj [("id", JsStr "666")]));
    (reflexivity || discriminate).
Defined.

(** *** Review update and the listings *)

Lemma review_matches_iff (c u : string) (r : ReviewRow) :
  SQL.review_matches (Some c) (Some u) r = true
  <-> r_course_id r = Some c /\ r_user_id r = Some u.
Proof.
  unfold SQL.review_matches. by rewrite andb_true_iff, !sql_eq_Some.
Qed.

(** X8. Review update. With rating or comment truthy: when no review has
    the (course_id, user_id) pair of the path and the lookup meets no
    fault, the answer is 404 and the store is as before; when some have and
    both queries meet no fault, the answer is 200 with the first updated
    row, and every review of the pair, duplicates included, is updated: it
    holds each supplied value, keeps its stored value for a field that is
    absent or [null], and keeps its pair. Reviews of other pairs and the
    other tables are as before. *)
Theorem update_review_edits_every_row_of_the_pair (courseId userId : string)
    (req : Request) (w : World) :
  let rating := field "rating" (body req) in
  let comment := field "comment" (body req) in
  let w' := snd (update_review courseId userId req w) in
  let updated r := if SQL.review_matches (Some courseId) (Some userId) r
                   then SQL.set_review (prepareValue rating)
                          (prepareValue comment) r
                   else r in
  truthy rating || truthy comment = true ->
  ((forall r, In r (Reviews (db w)) ->
              ~ (r_course_id r = Some courseId /\ r_user_id r = Some userId)) ->
   quiet 1 w = true ->
   update_review courseId userId req w
   = (Ok (respond 404 (error "Review not found")), after_query (db w) w))
  /\ (forall r0 rest,
        List.filter (SQL.review_matches (Some courseId) (Some userId))
          (Reviews (db w)) = r0 :: rest ->
        quiet 2 w = true ->
        fst (update_review courseId userId req w)
        = Ok (respond 200
                (JsObj [("message", JsStr "Review updated successfully");
                        ("review", json_of_row (review_row (updated r0)))]))
        /\ db w' = set_Reviews (List.map updated) (db w)
        /\ (forall r', In r' (Reviews (db w')) ->
              r_course_id r' = Some courseId -> r_user_id r' = Some userId ->
              (supplied rating = true -> r_rating r' = prepareValue rating)
              /\ (supplied comment = true ->
                  r_comment r' = prepareValue comment))
        /\ List.map r_course_id (Reviews (db w'))
           = List.map r_course_id (Reviews (db w))
        /\ List.map r_user_id (Reviews (db w'))
           = List.map r_user_id (Reviews (db w))
        /\ (supplied rating = false ->
            List.map r_rating (Reviews (db w'))
            = List.map r_rating (Reviews (db w)))
        /\ (supplied comment = false ->
            List.map r_comment (Reviews (db w'))
            = List.map r_comment (Reviews (db w)))).
Proof.
  intros rating comment w' updated Hguard.
  assert (Hcheck : negb (truthy rating) && negb (truthy comment) = false).
  { by destruct (truthy rating), (truthy comment). }
  split.
  - intros Hnone Hq. unfold update_review. fold rating comment.
    rewrite Hcheck. unfold try_catch, bind.
    rewrite (query_quiet _ _ Hq). simpl.
    replace (List.filter _ (Reviews (db w))) with (@nil ReviewRow); [done|].
    symmetry. apply filter_nil_iff. intros r Hr.
    destruct (SQL.review_matches _ _ r) eqn:Hm; [|done].
    apply review_matches_iff in Hm. by destruct (Hnone r Hr).
  - intros r0 rest Hf Hq. apply quiet_S in Hq as [Hq1 Hq2].
    assert (Hrun :
      update_review courseId userId req w
      = (Ok (respond 200
               (JsObj [("message", JsStr "Review updated successfully");
                       ("review", json_of_row (review_row (updated r0)))])),
         after_query (set_Reviews (List.map updated) (db w))
           (after_query (db w) w))).
    { unfold update_review. fold rating comment.
      rewrite Hcheck. unfold try_catch, bind.
      rewrite (query_quiet _ _ Hq1). simpl. rewrite Hf. simpl.
      rewrite query_quiet by apply (Hq2 (db w)). simpl. rewrite Hf. simpl.
      pose proof (filter_cons_inv _ _ _ _ Hf) as [_ Hm0].
      subst updated. simpl. by rewrite Hm0. }
    assert (Hw' : db w' = set_Reviews (List.map updated) (db w)).
    { subst w'. by rewrite Hrun. }
    assert (Hframe : forall (B : Type) (f : ReviewRow -> B),
               (forall r, f (SQL.set_review (prepareValue rating)
                               (prepareValue comment) r) = f r) ->
               List.map f (Reviews (db w')) = List.map f (Reviews (db w))).
    { intros B f Hfr. rewrite Hw'. simpl. rewrite List.map_map.
      apply List.map_ext. intros r. subst updated. simpl.
      by destruct (SQL.review_matches _ _ r). }
    split; [by rewrite Hrun|]. split; [exact Hw'|].
    split; [|split; [|split; [|split]]].
    + intros r' Hin Hc Hu. rewrite Hw' in Hin. simpl in Hin.
      apply in_map_iff in Hin as (r & <- & _). subst updated. simpl in *.
      destruct (SQL.review_matches (Some courseId) (Some userId) r) eqn:Hm.
      * unfold supplied, COALESCE. simpl.
        split; intros Hs;
          [destruct (prepareValue rating) | destruct (prepareValue comment)];
          done.
      * assert (SQL.review_matches (Some courseId) (Some userId) r = true)
          by by apply review_matches_iff.
        congruence.
    + by apply Hframe.
    + by apply Hframe.
    + intros Hs. apply Hframe. intros r. simpl.
      unfold supplied in Hs. unfold COALESCE.
      by destruct (prepareValue rating).
    + intros Hs. apply Hframe. intros r. simpl.
      unfold supplied in Hs. unfold COALESCE.
      by destruct (prepareValue comment).
Qed.

Lemma update_review_edits_every_row_of_the_pair_witness :
  update_review "1" "2" (request (PUT_reviews "1" "2") None
                           {[ "comment" := JStr "Dense" ]}) Sample.world
  = (Ok (respond 404 (error "Review not found")), Sample.world)
  /\ Reviews
       (db (snd (update_review "1" "1"
                   (request (PUT_reviews "1" "1") None
                      {[ "comment" := JStr "Dense" ]}) Sample.world)))
     = [{| r_course_id := Some "1"; r_user_id := Some "1";
           r_rating := Some "5"; r_comment := Some "Dense" |}].
Proof.
  split.
  - pose proof (update_review_edits_every_row_of_the_pair "1" "2"
                  (request (PUT_reviews "1" "2") None
                     {[ "comment" := JStr "Dense" ]}) Sample.world) as H.
    simpl in H. lapply H; [clear H; intros [H _] | reflexivity].
    apply H; [|reflexivity]. intros r [<- | []] [_ [=]].
  - pose proof (update_review_edits_every_row_of_the_pair "1" "1"
                  (request (PUT_reviews "1" "1") None
                     {[ "comment" := JStr "Dense" ]}) Sample.world) as H.
    simpl in H. lapply H; [clear H; intros [_ H] | reflexivity].
    destruct (H {| r_course_id := Some "1"; r_user_id := Some "1";
                   r_rating := Some "5"; r_comment := Some "Clear" |} []
                eq_refl eq_refl) as (_ & Hdb & _).
    rewrite Hdb. reflexivity.
Defined.

Lemma flat_map_nil {A B : Type} (f : A -> list B) (l : list A) :
  (forall x, In x l -> f x = []) -> List.flat_map f l = [].
Proof.
  induction l as [|a l IH]; simpl; [done|]. intros H.
  rewrite (H a (or_introl eq_refl)). simpl. apply IH. auto.
Qed.

(** X9. The listing of a course's reviews joins each review to its
    author. When its query meets no fault: if no review of the course has
    an author among the users, the answer is 404, even when the course has
    reviews; if a review of the course has an author among the users, the
    answer is 200 and the list holds that review with the author's name.
    A listed row has the properties rating, comment and reviewer_name and
    no other. *)
Theorem get_reviews_joins_reviews_to_authors (courseId : string)
    (req : Request) (w : World) :
  quiet 1 w = true ->
  ((forall r u x, In r (Reviews (db w)) -> In u (Users (db w)) ->
                  r_course_id r = Some courseId ->
                  r_user_id r = Some x -> u_id u <> Some x) ->
   get_reviews courseId req w
   = (Ok (respond 404 (message "No reviews found for this course")),
      after_query (db w) w))
  /\ (forall r u x, In r (Reviews (db w)) -> In u (Users (db w)) ->
                    r_course_id r = Some courseId ->
                    r_user_id r = Some x -> u_id u = Some x ->
      exists rows,
        get_reviews courseId req w
        = (Ok (respond 200
                 (JsObj [("reviews", JsArr (List.map json_of_row rows))])),
           after_query (db w) w)
        /\ In [("rating", r_rating r); ("comment", r_comment r);
               ("reviewer_name", u_name u)] rows
        /\ Forall (fun row => List.map fst row
                              = ["rating"; "comment"; "reviewer_name"])
             rows).
Proof.
  intros Hq. split.
  - intros Hnone. unfold get_reviews, try_catch, bind.
    rewrite (query_quiet _ _ Hq). simpl.
    replace (List.flat_map _ (Reviews (db w))) with (@nil row); [done|].
    symmetry. apply flat_map_nil. intros r Hr.
    replace (List.filter _ (Users (db w))) with (@nil UserRow); [done|].
    symmetry. apply filter_nil_iff. intros u Hu.
    destruct (sql_eq (r_user_id r) (u_id u)) eqn:Hon; [|done].
    destruct (sql_eq (r_course_id r) (Some courseId)) eqn:Hwhere; [|done].
    apply sql_eq_true in Hon as (x & Hx & Hx').
    apply sql_eq_Some in Hwhere.
    by destruct (Hnone r u x Hr Hu Hwhere Hx).
  - intros r u x Hr Hu Hc Hx Hux.
    exists (fst (SQL.course_reviews (Some courseId) (db w))).
    assert (Hin : In [("rating", r_rating r); ("comment", r_comment r);
                      ("reviewer_name", u_name u)]
                    (fst (SQL.course_reviews (Some courseId) (db w)))).
    { simpl. apply in_flat_map. exists r. split; [done|].
      apply in_map_iff. exists u. split; [done|].
      apply List.filter_In. split; [done|].
      rewrite Hx, Hux, Hc. simpl. by rewrite !String.eqb_refl. }
    split; [|split; [exact Hin|]].
    + unfold get_reviews, try_catch, bind.
      rewrite (query_quiet _ _ Hq). cbv beta iota.
      destruct (fst (SQL.course_reviews (Some courseId) (db w))) eqn:Hrows;
        [destruct Hin|]. reflexivity.
    + apply List.Forall_forall. simpl. intros row Hrow.
      apply in_flat_map in Hrow as (r' & _ & Hrow).
      by apply in_map_iff in Hrow as (u' & <- & _).
Qed.

Lemma get_reviews_joins_reviews_to_authors_witness :
  get_reviews "1" (request (GET_reviews "1") None ∅) Sample.dangling_world
  = (Ok (respond 404 (message "No reviews found for this course")),
     Sample.dangling_world)
  /\ exists rows,
       get_reviews "1" (request (GET_reviews "1") None ∅) Sample.world
       = (Ok (respond 200
                (JsObj [("reviews", JsArr (List.map json_of_row rows))])),
          Sample.world)
       /\ In [("rating", Some "5"); ("comment", Some "Clear");
              ("reviewer_name", Some "Alice")] rows.
Proof.
  split.
  - apply (proj1 (get_reviews_joins_reviews_to_authors "1"
                    (request (GET_reviews "1") None ∅)
                    Sample.dangling_world eq_refl)).
    intros r u x [<- | []] [<- | []] _ [= <-]. discriminate.
  - destruct (proj2 (get_reviews_joins_reviews_to_authors "1"
                       (request (GET_reviews "1") None ∅)
                       Sample.world eq_refl)
                {| r_course_id := Some "1"; r_user_id := Some "1";
                   r_rating := Some "5"; r_comment := Some "Clear" |}
                Sample.alice "1")
      as (rows & Hrun & Hin & _);
      try reflexivity; try (left; reflexivity).
    exists rows. split; [exact Hrun | exact Hin].
Defined.

(** X10. The listing of a user's enrolled courses, when its query meets
    no fault, leaves the store as it is and is decided by the join: 404
    when the join is empty, 200 with its rows otherwise. A course is in the
    join exactly when it is stored and one of the user's enrollments names
    its id; an enrollment in a course that is not stored shows nowhere. *)
Theorem get_enrollments_lists_the_joined_courses (userId : string)
    (req : Request) (w : World) :
  let listed := SQL.enrolled (Some userId) (db w) in
  quiet 1 w = true ->
  get_enrollments userId req w
  = (Ok (match listed with
         | [] => respond 404 (message "No enrolled courses found")
         | _ :: _ =>
             respond 200
               (JsObj [("enrolledCourses",
                        JsArr (List.map
                                 (fun c => json_of_row (course_row c))
                                 listed))])
         end), after_query (db w) w)
  /\ forall c,
       In c listed
       <-> In c (Courses (db w))
           /\ exists e x, In e (Enrollments (db w))
                          /\ e_user_id e = Some userId
                          /\ e_course_id e = Some x /\ c_id c = Some x.
Proof.
  intros listed Hq. split.
  - unfold get_enrollments, try_catch, bind.
    rewrite (query_quiet _ _ Hq). simpl. fold listed.
    destruct listed as [|c rest]; simpl; [done|].
    unfold ret. by rewrite List.map_map.
  - intros c. subst listed. unfold SQL.enrolled. rewrite in_flat_map. split.
    + intros (c1 & Hc1 & Hin). apply in_map_iff in Hin as (e & -> & He).
      apply List.filter_In in He as [He Hjoin].
      apply andb_true_iff in Hjoin as [Hon Hwhere].
      apply sql_eq_true in Hon as (x & Hx & Hx').
      apply sql_eq_Some in Hwhere. split; [done|]. by exists e, x.
    + intros (Hc & e & x & He & Hu & Hex & Hcx). exists c. split; [done|].
      apply in_map_iff. exists e. split; [done|].
      apply List.filter_In. split; [done|].
      rewrite Hcx, Hex, Hu. simpl. by rewrite !String.eqb_refl.
Qed.

Lemma get_enrollments_lists_the_joined_courses_witness :
  get_enrollments "1" (request (GET_enrollments "1") None ∅)
    Sample.dangling_world
  = (Ok (respond 404 (message "No enrolled courses found")),
     Sample.dangling_world)
  /\ fst (get_enrollments "1" (request (GET_enrollments "1") None ∅)
            Sample.world)
     = Ok (respond 200
             (JsObj [("enrolledCourses",
                      JsArr [json_of_row (course_row Sample.algebra)])])).
Proof.
  split.
  - apply (proj1 (get_enrollments_lists_the_joined_courses "1"
                    (request (GET_enrollments "1") None ∅)
                    Sample.dangling_world eq_refl)).
  - pose proof (proj1 (get_enrollments_lists_the_joined_courses "1"
                         (request (GET_enrollments "1") None ∅)
                         Sample.world eq_refl)) as H.
    rewrite H. reflexivity.
Defined.

(** *** Enrollment round trip *)

Lemma filter_negb_id {A : Type} (f : A -> bool) (l : list A) :
  List.filter f l = [] -> List.filter (fun x => negb (f x)) l = l.
Proof.
  induction l as [|a l IH]; simpl; [done|].
  destruct (f a); simpl; [discriminate|]. intros H. by rewrite IH.
Qed.

(** X11. Enroll then disenroll. From a store without the pair, an
    enrollment followed by a disenrollment of the same pair, both passing
    the presence check and meeting no fault, are answered 201 and 200 and
    leave the store exactly as it was before the two requests. *)
Theorem enroll_then_disenroll_restores_the_store (req1 req2 : Request)
    (w : World) (c u : string) :
  let w1 := snd (enroll req1 w) in
  let w2 := snd (disenroll req2 w1) in
  truthy (field "courseId" (body req1)) = true ->
  truthy (field "userId" (body req1)) = true ->
  truthy (field "courseId" (body req2)) = true ->
  truthy (field "userId" (body req2)) = true ->
  prepareValue (field "courseId" (body req1)) = Some c ->
  prepareValue (field "userId" (body req1)) = Some u ->
  prepareValue (field "courseId" (body req2)) = Some c ->
  prepareValue (field "userId" (body req2)) = Some u ->
  ~ In (Some c, Some u) (List.map enrollment_key (Enrollments (db w))) ->
  quiet 4 w = true ->
  (exists r1, fst (enroll req1 w) = Ok r1 /\ status r1 = 201%Z)
  /\ fst (disenroll req2 w1)
     = Ok (respond 200 (message "Disenrollment successful"))
  /\ db w2 = db w.
Proof.
  intros w1 w2 Hc1 Hu1 Hc2 Hu2 Hpc1 Hpu1 Hpc2 Hpu2 Hfresh Hq.
  pose proof (quiet_1 _ _ Hq) as Hq1.
  pose proof (quiet_after 3 w (db w) (rng w) Hq) as Hq2.
  apply enrollment_filter_nil in Hfresh.
  set (e := {| e_course_id := Some c; e_user_id := Some u |}).
  assert (Hrun1 :
    enroll req1 w
    = (Ok (respond 201
             (JsObj [("message", JsStr "Enrollment successful");
                     ("enrollment", json_of_row (enrollment_row e))])),
       after (set_Enrollments (fun es => es ++ [e]) (db w)) (rng w)
         (after (db w) (rng w) w))).
  { unfold enroll. rewrite Hc1, Hu1, Hpc1, Hpu1. simpl.
    unfold try_catch, bind. rewrite (query_quiet _ _ Hq1). simpl.
    rewrite Hfresh. simpl.
    by rewrite query_quiet by exact (quiet_1 _ _ Hq2). }
  assert (Hw1 : w1 = after (set_Enrollments (fun es => es ++ [e]) (db w))
                       (rng w) (after (db w) (rng w) w)).
  { subst w1. by rewrite Hrun1. }
  assert (Hq3 : quiet 2 w1 = true).
  { rewrite Hw1. by apply quiet_after. }
  assert (Hrun2 :
    disenroll req2 w1
    = (Ok (respond 200 (message "Disenrollment successful")),
       after (snd (SQL.delete_enrollment (Some c) (Some u) (db w1)))
         (rng w1) (after (db w1) (rng w1) w1))).
  { assert (Hrows : fst (SQL.enrollment_by_pair (Some c) (Some u) (db w1))
                    = [enrollment_row e]).
    { rewrite Hw1. simpl. rewrite List.filter_app, Hfresh. simpl.
      unfold SQL.enrollment_matches. simpl. by rewrite !String.eqb_refl. }
    unfold disenroll. rewrite Hc2, Hu2, Hpc2, Hpu2. simpl.
    unfold try_catch, bind. rewrite (query_quiet _ _ (quiet_1 _ _ Hq3)).
    cbv beta iota. rewrite Hrows. simpl.
    by rewrite query_quiet by exact (quiet_after 1 w1 (db w1) (rng w1) Hq3). }
  split; [rewrite Hrun1; eauto|]. split; [by rewrite Hrun2|].
  subst w2. rewrite Hrun2. simpl. rewrite Hw1. simpl.
  unfold set_Enrollments. simpl.
  rewrite List.filter_app, (filter_negb_id _ _ Hfresh). simpl.
  unfold SQL.enrollment_matches. simpl. rewrite !String.eqb_refl. simpl.
  rewrite List.app_nil_r. by destruct (db w).
Qed.

Lemma enroll_then_disenroll_restores_the_store_witness :
  db (snd (disenroll
             (request DELETE_enrollments None
                {[ "courseId" := JStr "1"; "userId" := JStr "2" ]})
             (snd (enroll
                     (request POST_enrollments None
                        {[ "courseId" := JNum 1; "userId" := JNum 2 ]})
                     Sample.world))))
  = Sample.store.
Proof.
  pose proof (enroll_then_disenroll_restores_the_store
                (request POST_enrollments None
                   {[ "courseId" := JNum 1; "userId" := JNum 2 ]})
                (request DELETE_enrollments None
                   {[ "courseId" := JStr "1"; "userId" := JStr "2" ]})
                Sample.world "1" "2") as H.
  simpl in H.
  do 8 (lapply H; [clear H; intros H | reflexivity]).
  lapply H; [clear H; intros H | intros [[=] | []]].
  destruct (H eq_refl) as (_ & _ & Hdb). exact Hdb.
Defined.

(** *** Token extraction and use *)

Lemma strip_prefix_app (pat s : string) :
  strip_prefix pat (String.append pat s) = Some s.
Proof.
  induction pat as [|a pat IH]; simpl; [done|].
  by rewrite Ascii.eqb_refl.
Qed.

Lemma replace_at_start (pat rep s : string) :
  replace pat rep (String.append pat s) = String.append rep s.
Proof.
  destruct (String.append pat s) as [|ch rest] eqn:Heq; simpl;
    rewrite <- Heq, strip_prefix_app; done.
Qed.

Lemma replace_not_included (pat rep s : string) :
  includes pat s = false -> replace pat rep s = s.
Proof.
  induction s as [|ch s IH]; simpl.
  - by destruct (strip_prefix pat "").
  - destruct (strip_prefix pat (String ch s)); [discriminate|].
    intros H. by rewrite IH.
Qed.

Lemma bearer_request (r : Route) (h : string) (b : gmap string jsval) :
  bearer (request r (Some h) b) = Some (replace "Bearer " "" h).
Proof. reflexivity. Qed.

(** X12. What the middleware takes as the token. From a header made of
    ["Bearer "] and a token it takes the token, whatever the token
    contains; from a header in which ["Bearer "] does not occur it takes
    the whole header: the scheme is not required. In both cases a token
    that is not empty and that [jwt.verify] accepts lets the handler of a
    protected route run on the request with the decoded payload
    attached: whatever comes [next] runs on the request whose [user] is
    that payload. *)
Theorem verifyToken_takes_bearer_and_bare_tokens (env : Env) (r : Route)
    (b : gmap string jsval) (w : World) (token : string) (decoded : json) :
  fst (routes env r) = true ->
  token <> "" ->
  jwt_verify env token (JWT_SECRET_KEY env) = Some decoded ->
  (let req := request r (Some (String.append "Bearer " token)) b in
   bearer req = Some token
   /\ app env req w = snd (routes env r) (set_user decoded req) w
   /\ forall next : Request -> M Response,
        verifyToken env req next w
        = next {| route := r;
                  authorization := Some (String.append "Bearer " token);
                  body := b; user := Some decoded |} w)
  /\ (includes "Bearer " token = false ->
      let req := request r (Some token) b in
      bearer req = Some token
      /\ app env req w = snd (routes env r) (set_user decoded req) w
      /\ forall next : Request -> M Response,
           verifyToken env req next w
           = next {| route := r; authorization := Some token;
                     body := b; user := Some decoded |} w).
Proof.
  intros Hauth Hne Hverify.
  assert (Hnext : forall h (next : Request -> M Response),
            replace "Bearer " "" h = token ->
            verifyToken env (request r (Some h) b) next w
            = next {| route := r; authorization := Some h;
                      body := b; user := Some decoded |} w).
  { intros h next Hh. unfold verifyToken. rewrite bearer_request, Hh.
    destruct token; [done|]. by rewrite Hverify. }
  assert (Hrun : forall h,
            replace "Bearer " "" h = token ->
            app env (request r (Some h) b) w
            = snd (routes env r) (set_user decoded (request r (Some h) b)) w).
  { intros h Hh. unfold app.
    change (route (request r (Some h) b)) with r.
    destruct (routes env r) as [auth handler]. simpl in Hauth. subst auth.
    unfold verifyToken. rewrite bearer_request, Hh.
    destruct token; [done|]. by rewrite Hverify. }
  split.
  - pose proof (replace_at_start "Bearer " "" token) as Hh.
    split; [by rewrite bearer_request, Hh|].
    split; [by apply Hrun|]. intros next. by apply Hnext.
  - intros Hbare. pose proof (replace_not_included _ "" _ Hbare) as Hh.
    split; [by rewrite bearer_request, Hh|].
    split; [by apply Hrun|]. intros next. by apply Hnext.
Qed.

Lemma verifyToken_takes_bearer_and_bare_tokens_witness :
  app Sample.env (request (DELETE_courses "9") (Some "Bearer tok:1") ∅)
    Sample.world
  = delete_course "9"
      (set_user (JsObj [("id", JsStr "1")])
         (request (DELETE_courses "9") (Some "Bearer tok:1") ∅))
      Sample.world
  /\ app Sample.env (request (DELETE_courses "9") (Some "tok:1") ∅)
       Sample.world
     = delete_course "9"
         (set_user (JsObj [("id", JsStr "1")])
            (request (DELETE_courses "9") (Some "tok:1") ∅))
         Sample.world.
Proof.
  pose proof (verifyToken_takes_bearer_and_bare_tokens Sample.env
                (DELETE_courses "9") ∅ Sample.world "tok:1"
                (JsObj [("id", JsStr "1")]) eq_refl ltac:(discriminate)
                eq_refl) as [(_ & Hbearer & _) Hbare].
  split; [exact Hbearer|]. apply Hbare. reflexivity.
Defined.

(** X13. A token issued by login opens the protected routes. When a login
    succeeds with a token that is not empty and that [jwt.verify] accepts,
    every request to a protected route that presents ["Bearer "] followed
    by that token reaches the handler of the route, with the decoded
    payload attached: whatever comes [next] runs on the request whose
    [user] is that payload. *)
Theorem issued_token_opens_protected_routes (env : Env) (w : World)
    (a : option string) (b : gmap string jsval) (u : UserRow)
    (rest : list UserRow) (token : string) (decoded : json) :
  truthy (field "email" b) = true ->
  truthy (field "password" b) = true ->
  List.filter
    (fun x => sql_eq (u_email x) (prepareValue (field "email" b)))
    (Users (db w)) = u :: rest ->
  bcrypt_compare env (field "password" b) (u_password u) = Some true ->
  jwt_sign env (u_id u) (JWT_SECRET_KEY env) "7d" = Some token ->
  token <> "" ->
  jwt_verify env token (JWT_SECRET_KEY env) = Some decoded ->
  quiet 1 w = true ->
  fst (app env (request POST_users_login a b) w)
  = Ok (respond 200
          (JsObj [("message", JsStr "Login successful");
                  ("token", JsStr token)]))
  /\ forall (r : Route) (b2 : gmap string jsval) (w2 : World),
       fst (routes env r) = true ->
       let req := request r (Some (String.append "Bearer " token)) b2 in
       app env req w2 = snd (routes env r) (set_user decoded req) w2
       /\ forall next : Request -> M Response,
            verifyToken env req next w2
            = next {| route := r;
                      authorization := Some (String.append "Bearer " token);
                      body := b2; user := Some decoded |} w2.
Proof.
  intros He Hp Hrows Hcmp Hsign Hne Hverify Hq. split.
  - change (app env (request POST_users_login a b) w)
      with (login env (request POST_users_login a b) w).
    by rewrite (login_accepts env (request POST_users_login a b) w u rest
                  token He Hp Hrows Hcmp Hsign Hq).
  - intros r b2 w2 Hauth req. subst req.
    assert (Hnext : forall next : Request -> M Response,
              verifyToken env
                (request r (Some (String.append "Bearer " token)) b2) next w2
              = next {| route := r;
                        authorization :=
                          Some (String.append "Bearer " token);
                        body := b2; user := Some decoded |} w2).
    { intros next. unfold verifyToken.
      rewrite bearer_request, (replace_at_start "Bearer " "" token).
      change (String.append "" token) with token.
      destruct token; [done|]. by rewrite Hverify. }
    split; [|exact Hnext]. unfold app.
    change (route (request r (Some (String.append "Bearer " token)) b2))
      with r.
    destruct (routes env r) as [auth handler]. simpl in Hauth. subst auth.
    apply Hnext.
Qed.

Lemma issued_token_opens_protected_routes_witness :
  fst (app Sample.env
         (request POST_users_login None
            {[ "email" := JStr "alice@example.org";
               "password" := JStr "wonderland" ]}) Sample.world)
  = Ok (respond 200
          (JsObj [("message", JsStr "Login successful");
                  ("token", JsStr "tok:1")]))
  /\ app Sample.env (request POST_enrollments (Some "Bearer tok:1") ∅)
       Sample.world
     = enroll (set_user (JsObj [("id", JsStr "1")])
                 (request POST_enrollments (Some "Bearer tok:1") ∅))
         Sample.world.
Proof.
  pose proof (issued_token_opens_protected_routes Sample.env Sample.world
                None
                {[ "email" := JStr "alice@example.org";
                   "password" := JStr "wonderland" ]}
                Sample.alice [] "tok:1" (JsObj [("id", JsStr "1")])) as H.
  do 5 (lapply H; [clear H; intros H | reflexivity]).
  lapply H; [clear H; intros H | discriminate].
  do 2 (lapply H; [clear H; intros H | reflexivity]).
  destruct H as [Hlogin Hopen]. split; [exact Hlogin|].
  apply (proj1 (Hopen POST_enrollments ∅ Sample.world eq_refl)).
Defined.

(** *** Statuses, writes and faults, route by route *)

(** The case analysis of a run of [app]: the route, the three outcomes of
    the middleware on a protected route, then the cases of the handler. *)
Ltac app_cases env req :=
  unfold app; destruct (route req); simpl; unfold verifyToken;
  try (destruct (bearer req) as [[|? ?]|]; simpl;
       try destruct (jwt_verify env _ _); simpl);
  unfold register, login, add_course, edit_course, delete_course,
    get_courses, enroll, disenroll, get_enrollments, submit_review,
    update_review, get_reviews;
  unfold generateToken, genSalt;
  unfold try_catch, bind, query, lift, server_error, throw, ret, empty,
    nonempty; simpl;
  repeat handler_step.

Ltac in_list := simpl; repeat first [left; reflexivity | right].

(** X14. Every request is answered, and the status of the answer is one
    of those the route's handler (and the middleware, on a protected route)
    can send: thus the unprotected routes never answer 401 or 403, the
    listing of an instructor's courses never answers 404, and only the
    creating routes answer 201. *)
Theorem app_answers_with_a_status_of_the_route (env : Env) (req : Request)
    (w : World) :
  exists r w', app env req w = (Ok r, w')
               /\ In (status r) (possible_statuses (route req)).
Proof.
  app_cases env req; (eexists _, _; split; [reflexivity | in_list]).
Qed.

(** X15. Writes come with success only. After a request answered with
    any status other than 200 and 201 the four tables hold the rows they
    held: a fault never leaves a partial write. After a request turned
    down with 400, 401, 403 or 404 the store is the one it was, and login
    and the three GET routes, which only read, leave the store as it was
    whatever they answer. *)
Theorem store_changes_only_with_success (env : Env) (req : Request)
    (w w' : World) (r : Response) :
  app env req w = (Ok r, w') ->
  (status r <> 200%Z -> status r <> 201%Z -> same_tables (db w) (db w'))
  /\ (In (status r) [400; 401; 403; 404]%Z -> db w' = db w)
  /\ (read_only (route req) = true -> db w' = db w).
Proof.
  intros Hrun.
  pose proof (app_writes_only_on_success env req w) as Hpost.
  rewrite Hrun in Hpost. split; [|split].
  - intros H200 H201. destruct Hpost as [? | [? | Hsame]]; [done..|].
    rewrite Hsame. by repeat split.
  - intros Hin. destruct Hpost as [H | [H | Hsame]]; [| |exact Hsame];
      rewrite H in Hin; simpl in Hin;
      destruct Hin as [Hin | [Hin | [Hin | [Hin | []]]]]; discriminate Hin.
  - revert Hrun. unfold app.
    destruct (route req); simpl; try discriminate; intros Hrun _;
      revert Hrun;
      unfold login, get_courses, get_enrollments, get_reviews;
      unfold generateToken;
      unfold try_catch, bind, query, lift, server_error, throw, ret, empty,
        nonempty; simpl;
      repeat handler_step; by intros [= <- <-].
Qed.

Lemma store_changes_only_with_success_witness :
  same_tables Sample.store
    (db (snd (app Sample.env
                (request POST_users_register None
                   {[ "name" := JStr "Bob";
                      "email" := JStr "bob@example.org";
                      "password" := JNum 1234; "role" := JStr "student" ]})
                Sample.world)))
  /\ db (snd (app Sample.env
                (request (PUT_courses "1") None
                   {[ "title" := JStr "Analysis" ]})
                Sample.world))
     = Sample.store
  /\ db (snd (app Sample.env
                (request POST_users_login None
                   {[ "email" := JStr "alice@example.org";
                      "password" := JStr "wonderland" ]})
                Sample.world))
     = Sample.store.
Proof.
  split; [|split].
  - pose proof (store_changes_only_with_success Sample.env
                  (request POST_users_register None
                     {[ "name" := JStr "Bob";
                        "email" := JStr "bob@example.org";
                        "password" := JNum 1234;
                        "role" := JStr "student" ]})
                  Sample.world
                  {| db := Sample.store; faults := []; rng := 1 |}
                  (respond 500 (error "Server error"))) as H.
    lapply H; [clear H; intros [H _] | reflexivity].
    apply H; discriminate.
  - pose proof (store_changes_only_with_success Sample.env
                  (request (PUT_courses "1") None
                     {[ "title" := JStr "Analysis" ]})
                  Sample.world Sample.world
                  (respond 401
                     (message "Access Denied: No Token Provided"))) as H.
    lapply H; [clear H; intros (_ & H & _) | reflexivity].
    apply H. right. left. reflexivity.
  - pose proof (store_changes_only_with_success Sample.env
                  (request POST_users_login None
                     {[ "email" := JStr "alice@example.org";
                        "password" := JStr "wonderland" ]})
                  Sample.world Sample.world
                  (respond 200
                     (JsObj [("message", JsStr "Login successful");
                             ("token", JsStr "tok:1")]))) as H.
    lapply H; [clear H; intros (_ & _ & H) | reflexivity].
    apply H. reflexivity.
Defined.

(** X16. How a fault shows. When the next query is bound to reject, a
    request either never reaches the database -- it is answered 400, 401 or
    403 and the world is untouched -- or it is answered 500 "Server error",
    the one body of every [catch] block, and the four tables hold the rows
    they held: the handler issues no further query after the rejection. *)
Theorem a_rejected_query_is_a_server_error (env : Env) (req : Request)
    (w : World) (fs : list bool) :
  faults w = true :: fs ->
  exists r w',
    app env req w = (Ok r, w')
    /\ ((r = respond 500 (error "Server error")
         /\ same_tables (db w) (db w') /\ faults w' = fs)
        \/ (w' = w /\ In (status r) [400; 401; 403]%Z)).
Proof.
  intros Hf. unfold app; destruct (route req); simpl; unfold verifyToken;
  try (destruct (bearer req) as [[|? ?]|]; simpl;
       try destruct (jwt_verify env _ _); simpl);
  unfold register, login, add_course, edit_course, delete_course,
    get_courses, enroll, disenroll, get_enrollments, submit_review,
    update_review, get_reviews;
  unfold try_catch, bind, query, server_error, ret;
  repeat first [progress (cbv beta; rewrite ?Hf; simpl) | handler_step];
  (eexists _, _; split; [reflexivity|]);
  first [left; split; [reflexivity | split; [by repeat split | reflexivity]]
        | right; split; [reflexivity | in_list]].
Qed.

Lemma a_rejected_query_is_a_server_error_witness :
  exists r w',
    app Sample.env (request (GET_reviews "1") None ∅)
      {| db := Sample.store; faults := [true; false]; rng := 0 |}
    = (Ok r, w')
    /\ ((r = respond 500 (error "Server error")
         /\ same_tables Sample.store (db w') /\ faults w' = [false])
        \/ (w' = {| db := Sample.store; faults := [true; false]; rng := 0 |}
            /\ In (status r) [400; 401; 403]%Z)).
Proof.
  apply (a_rejected_query_is_a_server_error Sample.env
           (request (GET_reviews "1") None ∅)
           {| db := Sample.store; faults := [true; false]; rng := 0 |}
           [false]).
  reflexivity.
Defined.

(** *** Compositions *)

Lemma enroll_inserted (req : Request) (w : World) (c u : string) :
  truthy (field "courseId" (body req)) = true ->
  truthy (field "userId" (body req)) = true ->
  prepareValue (field "courseId" (body req)) = Some c ->
  prepareValue (field "userId" (body req)) = Some u ->
  ~ In (Some c, Some u) (List.map enrollment_key (Enrollments (db w))) ->
  quiet 2 w = true ->
  enroll req w
  = (Ok (respond 201
           (JsObj [("message", JsStr "Enrollment successful");
                   ("enrollment",
                    JsObj [("course_id", JsStr c); ("user_id", JsStr u)])])),
     after (set_Enrollments
              (fun es => es ++ [{| e_course_id := Some c;
                                   e_user_id := Some u |}]) (db w))
       (rng w) (after (db w) (rng w) w)).
Proof.
  intros Hc Hu Hpc Hpu Hfresh Hq.
  apply enrollment_filter_nil in Hfresh.
  unfold enroll. rewrite Hc, Hu, Hpc, Hpu. simpl.
  unfold try_catch, bind. rewrite (query_quiet _ _ (quiet_1 _ _ Hq)). simpl.
  rewrite Hfresh. simpl.
  by rewrite query_quiet by exact (quiet_after 1 w (db w) (rng w) Hq).
Qed.

(** X17. Enrolling the same pair twice. After an enrollment that inserts
    the pair, a second enrollment of the same pair, however its ids are
    written in the body (the number 1 and the string "1" are the same id),
    is answered 400 and leaves Enrollments with the single row. *)
Theorem enroll_twice_conflicts (req1 req2 : Request) (w : World)
    (c u : string) :
  let w1 := snd (enroll req1 w) in
  truthy (field "courseId" (body req1)) = true ->
  truthy (field "userId" (body req1)) = true ->
  truthy (field "courseId" (body req2)) = true ->
  truthy (field "userId" (body req2)) = true ->
  prepareValue (field "courseId" (body req1)) = Some c ->
  prepareValue (field "userId" (body req1)) = Some u ->
  prepareValue (field "courseId" (body req2)) = Some c ->
  prepareValue (field "userId" (body req2)) = Some u ->
  ~ In (Some c, Some u) (List.map enrollment_key (Enrollments (db w))) ->
  quiet 3 w = true ->
  (exists r1, fst (enroll req1 w) = Ok r1 /\ status r1 = 201%Z)
  /\ enroll req2 w1
     = (Ok (respond 400 (error "User is already enrolled in this course")),
        after_query (db w1) w1)
  /\ Enrollments (db w1)
     = Enrollments (db w) ++ [{| e_course_id := Some c;
                                 e_user_id := Some u |}].
Proof.
  intros w1 Hc1 Hu1 Hc2 Hu2 Hpc1 Hpu1 Hpc2 Hpu2 Hfresh Hq.
  pose proof (enroll_inserted req1 w c u Hc1 Hu1 Hpc1 Hpu1 Hfresh
                (quiet_weaken _ _ Hq)) as Hrun1.
  assert (Hw1 : w1 = after (set_Enrollments
                              (fun es => es ++ [{| e_course_id := Some c;
                                                   e_user_id := Some u |}])
                              (db w))
                       (rng w) (after (db w) (rng w) w)).
  { subst w1. by rewrite Hrun1. }
  assert (Hq1 : quiet 1 w1 = true).
  { rewrite Hw1. apply quiet_after.
    exact (quiet_after 2 w (db w) (rng w) Hq). }
  assert (Hfound :
    nonempty (fst (SQL.enrollment_by_pair (Some c) (Some u) (db w1)))
    = true).
  { rewrite Hw1. simpl. rewrite List.filter_app. simpl.
    unfold SQL.enrollment_matches at 2. simpl. rewrite !String.eqb_refl.
    simpl. by destruct (List.filter _ (Enrollments (db w))). }
  split; [rewrite Hrun1; eauto|]. split.
  - unfold enroll. rewrite Hc2, Hu2, Hpc2, Hpu2. simpl.
    unfold try_catch, bind. rewrite (query_quiet _ _ Hq1).
    cbv beta iota. by rewrite Hfound.
  - by rewrite Hw1.
Qed.

Lemma enroll_twice_conflicts_witness :
  enroll (request POST_enrollments None
            {[ "courseId" := JStr "1"; "userId" := JStr "2" ]})
    (snd (enroll (request POST_enrollments None
                    {[ "courseId" := JNum 1; "userId" := JNum 2 ]})
            Sample.world))
  = (Ok (respond 400 (error "User is already enrolled in this course")),
     {| db := set_Enrollments
                (fun es => es ++ [{| e_course_id := Some "1";
                                     e_user_id := Some "2" |}])
                Sample.store;
        faults := []; rng := 0 |}).
Proof.
  pose proof (enroll_twice_conflicts
                (request POST_enrollments None
                   {[ "courseId" := JNum 1; "userId" := JNum 2 ]})
                (request POST_enrollments None
                   {[ "courseId" := JStr "1"; "userId" := JStr "2" ]})
                Sample.world "1" "2") as H.
  simpl in H.
  do 8 (lapply H; [clear H; intros H | reflexivity]).
  lapply H; [clear H; intros H | intros [[=] | []]].
  destruct (H eq_refl) as (_ & Hsecond & _). rewrite Hsecond. reflexivity.
Defined.

Lemma filter_column_fresh {A : Type} (column : A -> sqlval) (x : string)
    (l : list A) :
  (forall a, In a l -> column a <> Some x) ->
  List.filter (fun r => sql_eq (column r) (Some x)) l = []
  /\ List.filter (fun r => negb (sql_eq (column r) (Some x))) l = l
  /\ forall f : A -> A,
       List.map (fun r => if sql_eq (column r) (Some x) then f r else r) l
       = l.
Proof.
  intros Hfresh.
  assert (Hfalse : forall a, In a l -> sql_eq (column a) (Some x) = false).
  { intros a Ha. destruct (sql_eq (column a) (Some x)) eqn:Heq; [|done].
    apply sql_eq_Some in Heq. by destruct (Hfresh a Ha). }
  clear Hfresh. induction l as [|a l IH]; simpl; [done|].
  rewrite (Hfalse a (or_introl eq_refl)). simpl.
  destruct IH as (IH1 & IH2 & IH3); [intros; apply Hfalse; by right|].
  split; [done|]. split; [by rewrite IH2|]. intros f. by rewrite IH3.
Qed.

(** X18. The life of a course. From a store in which the next id of the
    sequence is not in use, creating a course, then editing it by that id
    (title or description truthy), then deleting it by that id, all without
    fault, is answered 201, 200 and 200, and leaves Courses and the other
    tables exactly as they were before the three requests; the edit
    touched the new course only. *)
Theorem course_created_edited_deleted (req1 req2 req3 : Request)
    (w : World) :
  let id := pretty (courses_id_seq (db w)) in
  let w1 := snd (add_course req1 w) in
  let w2 := snd (edit_course id req2 w1) in
  let w3 := snd (delete_course id req3 w2) in
  truthy (field "title" (body req1)) = true ->
  truthy (field "instructor_id" (body req1)) = true ->
  truthy (field "title" (body req2))
  || truthy (field "description" (body req2)) = true ->
  (forall c, In c (Courses (db w)) -> c_id c <> Some id) ->
  quiet 5 w = true ->
  (exists r1, fst (add_course req1 w) = Ok r1 /\ status r1 = 201%Z)
  /\ (exists r2, fst (edit_course id req2 w1) = Ok r2 /\ status r2 = 200%Z)
  /\ fst (delete_course id req3 w2)
     = Ok (respond 200 (message "Course deleted successfully"))
  /\ Courses (db w2)
     = Courses (db w)
       ++ [{| c_id := Some id;
              c_title := COALESCE (prepareValue (field "title" (body req2)))
                           (prepareValue (field "title" (body req1)));
              c_description :=
                COALESCE (prepareValue (field "description" (body req2)))
                  (prepareValue (field "description" (body req1)));
              c_instructor_id :=
                prepareValue (field "instructor_id" (body req1)) |}]
  /\ Courses (db w3) = Courses (db w)
  /\ Users (db w3) = Users (db w)
  /\ Enrollments (db w3) = Enrollments (db w)
  /\ Reviews (db w3) = Reviews (db w).
Proof.
  intros id w1 w2 w3 Ht Hi Hguard Hfresh Hq.
  destruct (filter_column_fresh c_id id _ Hfresh) as (Hnone & Hkeep & Hmap).
  set (c := {| c_id := Some id;
               c_title := prepareValue (field "title" (body req1));
               c_description :=
                 prepareValue (field "description" (body req1));
               c_instructor_id :=
                 prepareValue (field "instructor_id" (body req1)) |}).
  set (c' := SQL.set_course (prepareValue (field "title" (body req2)))
               (prepareValue (field "description" (body req2))) c).
  assert (Hcheck : negb (truthy (field "title" (body req2)))
                   && negb (truthy (field "description" (body req2)))
                   = false).
  { by destruct (truthy (field "title" (body req2))),
         (truthy (field "description" (body req2))). }
  (* the creation *)
  assert (Hrun1 : exists r1,
    add_course req1 w
    = (Ok r1, after (snd (SQL.insert_course
                            (prepareValue (field "title" (body req1)))
                            (prepareValue (field "description" (body req1)))
                            (prepareValue (field "instructor_id" (body req1)))
                            (db w))) (rng w) w)
    /\ status r1 = 201%Z).
  { unfold add_course. rewrite Ht, Hi. simpl. unfold try_catch, bind.
    rewrite (query_quiet _ _ (quiet_1 _ _ Hq)). simpl. eauto. }
  destruct Hrun1 as (r1 & Hrun1 & Hs1).
  assert (Hw1 : w1 = after (snd (SQL.insert_course
                            (prepareValue (field "title" (body req1)))
                            (prepareValue (field "description" (body req1)))
                            (prepareValue (field "instructor_id" (body req1)))
                            (db w))) (rng w) w).
  { subst w1. by rewrite Hrun1. }
  assert (Hq1 : quiet 4 w1 = true) by (rewrite Hw1; by apply quiet_after).
  assert (Hc1 : Courses (db w1) = Courses (db w) ++ [c]) by by rewrite Hw1.
  assert (Hsel1 : List.filter (fun x => sql_eq (c_id x) (Some id))
                    (Courses (db w1)) = [c]).
  { rewrite Hc1, List.filter_app, Hnone. simpl.
    by rewrite String.eqb_refl. }
  (* the edit *)
  assert (Hrun2 : exists r2,
    edit_course id req2 w1
    = (Ok r2, after (snd (SQL.update_course
                            (prepareValue (field "title" (body req2)))
                            (prepareValue (field "description" (body req2)))
                            (Some id) (db w1)))
                (rng w1) (after (db w1) (rng w1) w1))
    /\ status r2 = 200%Z).
  { unfold edit_course. rewrite Hcheck. unfold try_catch, bind.
    rewrite (query_quiet _ _ (quiet_1 _ _ Hq1)). simpl.
    rewrite Hsel1. simpl.
    rewrite query_quiet
      by exact (quiet_1 _ _ (quiet_after 3 w1 (db w1) (rng w1) Hq1)).
    simpl. rewrite Hsel1. simpl. eauto. }
  destruct Hrun2 as (r2 & Hrun2 & Hs2).
  assert (Hw2 : w2 = after (snd (SQL.update_course
                            (prepareValue (field "title" (body req2)))
                            (prepareValue (field "description" (body req2)))
                            (Some id) (db w1)))
                (rng w1) (after (db w1) (rng w1) w1)).
  { subst w2. by rewrite Hrun2. }
  assert (Hq2 : quiet 2 w2 = true).
  { rewrite Hw2. apply quiet_after. by apply quiet_after. }
  assert (Hc2 : Courses (db w2) = Courses (db w) ++ [c']).
  { rewrite Hw2. simpl. rewrite Hc1, List.map_app, Hmap. simpl.
    by rewrite String.eqb_refl. }
  assert (Hsel2 : List.filter (fun x => sql_eq (c_id x) (Some id))
                    (Courses (db w2)) = [c']).
  { rewrite Hc2, List.filter_app, Hnone. simpl.
    by rewrite String.eqb_refl. }
  (* the deletion *)
  assert (Hrun3 :
    delete_course id req3 w2
    = (Ok (respond 200 (message "Course deleted successfully")),
       after (snd (SQL.delete_course (Some id) (db w2))) (rng w2)
         (after (db w2) (rng w2) w2))).
  { unfold delete_course, try_catch, bind.
    rewrite (query_quiet _ _ (quiet_1 _ _ Hq2)). simpl.
    rewrite Hsel2. simpl.
    by rewrite query_quiet
      by exact (quiet_after 1 w2 (db w2) (rng w2) Hq2). }
  assert (Hdb3 : db w3 = snd (SQL.delete_course (Some id) (db w2))).
  { subst w3. by rewrite Hrun3. }
  split; [rewrite Hrun1; eauto|]. split; [rewrite Hrun2; eauto|].
  split; [by rewrite Hrun3|]. split; [exact Hc2|].
  rewrite Hdb3. simpl. rewrite Hc2, List.filter_app, Hkeep. simpl.
  rewrite String.eqb_refl. simpl. rewrite List.app_nil_r.
  rewrite Hw2. simpl. by rewrite Hw1.
Qed.

Lemma course_created_edited_deleted_witness :
  Courses
    (db (snd (edit_course "2"
                (request (PUT_courses "2") None
                   {[ "description" := JStr "Open sets" ]})
                (snd (add_course
                        (request POST_courses None
                           {[ "title" := JStr "Topology";
                              "instructor_id" := JNum 7 ]})
                        Sample.world)))))
  = [Sample.algebra;
     {| c_id := Some "2"; c_title := Some "Topology";
        c_description := Some "Open sets"; c_instructor_id := Some "7" |}]
  /\ Courses
       (db (snd (delete_course "2" (request (DELETE_courses "2") None ∅)
                   (snd (edit_course "2"
                           (request (PUT_courses "2") None
                              {[ "description" := JStr "Open sets" ]})
                           (snd (add_course
                                   (request POST_courses None
                                      {[ "title" := JStr "Topology";
                                         "instructor_id" := JNum 7 ]})
                                   Sample.world)))))))
     = [Sample.algebra].
Proof.
  pose proof (course_created_edited_deleted
                (request POST_courses None
                   {[ "title" := JStr "Topology";
                      "instructor_id" := JNum 7 ]})
                (request (PUT_courses "2") None
                   {[ "description" := JStr "Open sets" ]})
                (request (DELETE_courses "2") None ∅)
                Sample.world) as H.
  cbv zeta in H.
  do 3 (lapply H; [clear H; intros H | reflexivity]).
  lapply H; [clear H; intros H | intros c [<- | []]; discriminate].
  destruct (H eq_refl) as (_ & _ & _ & Hedited & Hdeleted & _).
  split; [exact Hedited | exact Hdeleted].
Defined.
